(** * highload-final: the streaming window analytics engine

    A shallow embedding of package [analytics] (the [Analyzer] of
    internal/analytics): the per-device sliding window, the rolling
    mean / population standard deviation, the z-score classifier, the
    bounded ingestion and result queues, and the registry lookup/insert
    run by concurrent workers.

    Go's [float64] is IEEE 754 binary64, which is exactly Rocq's primitive
    [float]; arithmetic, comparison and square root are the primitive
    operations, each rounded on its own (no fused multiply-add, as the
    compiler emits on amd64), so every definition below evaluates on
    concrete readings.  [time.Time] is an opaque instant, modelled as an
    integer.  Line numbers are those of src/internal/models/models.go, the
    listing that holds the package. *)

From Stdlib Require Import ZArith List Floats Lia Bool String.
From stdpp Require Import gmap strings.
Import ListNotations.

Set Default Proof Using "Type".
#[local] Set Warnings "-inexact-float".
Local Open Scope Z_scope.

(** ** Go's float64 and the [math] functions the analyzer calls *)

Abbreviation float64 := float (only parsing).

(** Go's [x > y] on float64: false as soon as one side is NaN. *)
Definition fgt (x y : float64) : bool := (y <? x)%float.

(** [math.Abs] and [math.Sqrt] are the IEEE operations. *)
Definition math_Abs (x : float64) : float64 := abs x.
Definition math_Sqrt (x : float64) : float64 := sqrt x.

(** [math.Max], with the special cases of its documentation:
    Max(x, +Inf) = Max(+Inf, x) = +Inf; Max(x, NaN) = Max(NaN, x) = NaN;
    Max(+0, ±0) = Max(±0, +0) = +0; Max(-0, -0) = -0. *)
Definition math_Max (x y : float64) : float64 :=
  if ((x =? infinity) || (y =? infinity))%float then infinity
  else if is_nan x || is_nan y then nan
  else if ((x =? 0) && (x =? y))%float then (if get_sign x then y else x)
  else if fgt x y then x else y.

(** The conversion [float64(n)] of a slice length. *)
Definition float64_of_int (n : Z) : float64 := of_uint63 (Uint63.of_Z n).

Definition float64_of_len {A} (s : list A) : float64 :=
  float64_of_int (Z.of_nat (length s)).

(** ** Outcomes of an operation

    [Ok] is a normal return, [Blocks] a goroutine suspended on a channel
    operation or a mutex, [Panic] a run-time panic (which, unrecovered,
    aborts the process). *)

Inductive Outcome (A : Type) : Type :=
  | Ok (a : A)
  | Blocks
  | Panic (msg : string).
Arguments Ok {A} a.
Arguments Blocks {A}.
Arguments Panic {A} msg.

Definition bind {A B} (o : Outcome A) (k : A -> Outcome B) : Outcome B :=
  match o with
  | Ok a => k a
  | Blocks => Blocks
  | Panic msg => Panic msg
  end.

#[global] Instance Outcome_ret : MRet Outcome := @Ok.
#[global] Instance Outcome_bind : MBind Outcome := fun A B k o => bind o k.

Definition is_panic {A} (o : Outcome A) : bool :=
  match o with Panic _ => true | _ => false end.

(** ** Data model (lines 370-409) *)

Definition Time := Z.

Record MetricData := {
  DeviceID : string;
  Timestamp : Time;
  CPU : float64;
  RPS : float64
}.

(** [rDeviceID] and [rTimestamp] are the fields [DeviceID] and [Timestamp]
    of the Go struct; the other fields keep their names. *)
Record AnalysisResult := {
  rDeviceID : string;
  rTimestamp : Time;
  RollingAvgCPU : float64;
  RollingAvgRPS : float64;
  IsAnomaly : bool;
  AnomalyScore : float64;
  AnomalyType : string;
  StandardDev : float64
}.

Record MetricWindow := {
  cpuValues : list float64;
  rpsValues : list float64;
  timestamps : list Time;
  maxSize : Z
}.

(** ** Buffered channels

    A channel is its buffer, its capacity and whether it was closed.  The
    operations follow the language specification: a send on a closed
    channel and a second close panic; a send blocks while the buffer is
    full; a receive blocks while the buffer is empty and the channel open,
    and yields the zero value (here [None]) once it is closed and drained. *)

Record Chan (A : Type) := {
  buf : list A;
  cap : nat;
  closed : bool
}.
Arguments buf {A} c.
Arguments cap {A} c.
Arguments closed {A} c.

Definition make_chan {A} (n : nat) : Chan A :=
  {| buf := []; cap := n; closed := false |}.

Definition chan_send {A} (ch : Chan A) (v : A) : Outcome (Chan A) :=
  if closed ch then Panic "send on closed channel"
  else if (length (buf ch) <? cap ch)%nat
       then Ok {| buf := buf ch ++ [v]; cap := cap ch; closed := false |}
       else Blocks.

Definition chan_recv {A} (ch : Chan A) : Outcome (option A * Chan A) :=
  match buf ch with
  | v :: rest => Ok (Some v, {| buf := rest; cap := cap ch; closed := closed ch |})
  | [] => if closed ch then Ok (None, ch) else Blocks
  end.

Definition chan_close {A} (ch : Chan A) : Outcome (Chan A) :=
  if closed ch then Panic "close of closed channel"
  else Ok {| buf := buf ch; cap := cap ch; closed := true |}.

(** [select { case ch <- v: default: }]: the default branch is taken
    exactly when the send would block. *)
Definition select_send_default {A} (ch : Chan A) (v : A) : Outcome (Chan A) :=
  match chan_send ch v with
  | Blocks => Ok ch
  | o => o
  end.

(** ** The analyzer *)

Record Analyzer := {
  windows : gmap string MetricWindow;
  windowSize : Z;
  anomalyThreshold : float64;
  metricsChan : Chan MetricData;
  resultsChan : Chan AnalysisResult;
  stopChan : Chan unit;
  wg : nat
}.

Definition NewAnalyzer (windowSize : Z) (anomalyThreshold : float64) : Analyzer :=
  {| windows := ∅;
     windowSize := windowSize;
     anomalyThreshold := anomalyThreshold;
     metricsChan := make_chan 1000;
     resultsChan := make_chan 1000;
     stopChan := make_chan 0;
     wg := 0 |}.

Definition set_windows (a : Analyzer) (ws : gmap string MetricWindow) : Analyzer :=
  {| windows := ws; windowSize := windowSize a;
     anomalyThreshold := anomalyThreshold a; metricsChan := metricsChan a;
     resultsChan := resultsChan a; stopChan := stopChan a; wg := wg a |}.

Definition set_metricsChan (a : Analyzer) (ch : Chan MetricData) : Analyzer :=
  {| windows := windows a; windowSize := windowSize a;
     anomalyThreshold := anomalyThreshold a; metricsChan := ch;
     resultsChan := resultsChan a; stopChan := stopChan a; wg := wg a |}.

Definition set_resultsChan (a : Analyzer) (ch : Chan AnalysisResult) : Analyzer :=
  {| windows := windows a; windowSize := windowSize a;
     anomalyThreshold := anomalyThreshold a; metricsChan := metricsChan a;
     resultsChan := ch; stopChan := stopChan a; wg := wg a |}.

Definition set_stopChan (a : Analyzer) (ch : Chan unit) : Analyzer :=
  {| windows := windows a; windowSize := windowSize a;
     anomalyThreshold := anomalyThreshold a; metricsChan := metricsChan a;
     resultsChan := resultsChan a; stopChan := ch; wg := wg a |}.

Definition set_wg (a : Analyzer) (n : nat) : Analyzer :=
  {| windows := windows a; windowSize := windowSize a;
     anomalyThreshold := anomalyThreshold a; metricsChan := metricsChan a;
     resultsChan := resultsChan a; stopChan := stopChan a; wg := n |}.

(** [Start]: one [wg.Add(1)] and one worker goroutine per iteration. *)
Definition Start (a : Analyzer) (workers : Z) : Analyzer :=
  set_wg a (wg a + Z.to_nat workers)%nat.

(** *** Rolling statistics (calculateAverage, calculateStdDev) *)

Definition calculateAverage (values : list float64) : float64 :=
  if (length values =? 0)%nat then 0%float
  else
    let sum := fold_left (fun sum v => (sum + v)%float) values 0%float in
    (sum / float64_of_len values)%float.

Definition calculateStdDev (values : list float64) (mean : float64) : float64 :=
  if (length values =? 0)%nat then 0%float
  else
    let variance :=
      fold_left (fun variance v =>
                   let diff := (v - mean)%float in
                   (variance + diff * diff)%float) values 0%float in
    let variance := (variance / float64_of_len values)%float in
    math_Sqrt variance.

(** *** The window update of [analyze] (lines 490-500) *)

(** [make([]T, 0, n)] panics on a negative capacity. *)
Definition make_slice {A} (n : Z) : Outcome (list A) :=
  if n <? 0 then Panic "makeslice: cap out of range" else Ok [].

Definition newWindow (windowSize : Z) : Outcome MetricWindow :=
  cpu ← make_slice windowSize;
  rps ← make_slice windowSize;
  ts ← make_slice windowSize;
  Ok {| cpuValues := cpu; rpsValues := rps; timestamps := ts;
        maxSize := windowSize |}.

(** Append the sample to the three sequences, then drop index 0 of each
    when the CPU sequence has grown past [maxSize]. *)
Definition appendWindow (window : MetricWindow) (data : MetricData) : MetricWindow :=
  let cpu := cpuValues window ++ [CPU data] in
  let rps := rpsValues window ++ [RPS data] in
  let ts := timestamps window ++ [Timestamp data] in
  if Z.of_nat (length cpu) >? maxSize window
  then {| cpuValues := drop 1 cpu; rpsValues := drop 1 rps;
          timestamps := drop 1 ts; maxSize := maxSize window |}
  else {| cpuValues := cpu; rpsValues := rps;
          timestamps := ts; maxSize := maxSize window |}.

(** *** z-scores (lines 510-517)

    [zScoreWith fdiv] is the guarded quotient with [fdiv] for the division
    sign; the code is the instance at the float64 division. *)
Definition zScoreWith (fdiv : float64 -> float64 -> float64)
    (x avg stdDev : float64) : float64 :=
  if fgt stdDev 0%float then fdiv (x - avg)%float stdDev else 0%float.

Definition zScore : float64 -> float64 -> float64 -> float64 :=
  zScoreWith PrimFloat.div.

(** *** Classification (lines 519-542) *)
Definition classify (threshold zScoreCPU zScoreRPS : float64) : bool * string :=
  let isAnomaly := false in
  let anomalyType := EmptyString in
  let '(isAnomaly, anomalyType) :=
    if fgt (math_Abs zScoreCPU) threshold
    then (true, if fgt zScoreCPU 0%float then "CPU_SPIKE"%string else "CPU_DROP"%string)
    else (isAnomaly, anomalyType) in
  let '(isAnomaly, anomalyType) :=
    if fgt (math_Abs zScoreRPS) threshold
    then (true,
          if negb (String.eqb anomalyType EmptyString) then "MULTIPLE_ANOMALY"%string
          else if fgt zScoreRPS 0%float then "RPS_SPIKE"%string
          else "RPS_DROP"%string)
    else (isAnomaly, anomalyType) in
  (isAnomaly, anomalyType).

(** The statistics [analyze] computes on the updated window for one
    reading (lines 502-517). *)
Record Stats := {
  avgCPU : float64;
  avgRPS : float64;
  stdDevCPU : float64;
  stdDevRPS : float64;
  zScoreCPU : float64;
  zScoreRPS : float64
}.

Definition windowStats (window : MetricWindow) (data : MetricData) : Stats :=
  let avgCPU := calculateAverage (cpuValues window) in
  let avgRPS := calculateAverage (rpsValues window) in
  let stdDevCPU := calculateStdDev (cpuValues window) avgCPU in
  let stdDevRPS := calculateStdDev (rpsValues window) avgRPS in
  {| avgCPU := avgCPU; avgRPS := avgRPS;
     stdDevCPU := stdDevCPU; stdDevRPS := stdDevRPS;
     zScoreCPU := zScore (CPU data) avgCPU stdDevCPU;
     zScoreRPS := zScore (RPS data) avgRPS stdDevRPS |}.

(** Lines 519-553: classification and the result record. *)
Definition mkResult (threshold : float64) (data : MetricData) (st : Stats)
    : AnalysisResult :=
  let maxZScore := math_Max (math_Abs (zScoreCPU st)) (math_Abs (zScoreRPS st)) in
  let '(isAnomaly, anomalyType) := classify threshold (zScoreCPU st) (zScoreRPS st) in
  {| rDeviceID := DeviceID data;
     rTimestamp := Timestamp data;
     RollingAvgCPU := avgCPU st;
     RollingAvgRPS := avgRPS st;
     IsAnomaly := isAnomaly;
     AnomalyScore := maxZScore;
     AnomalyType := anomalyType;
     StandardDev := math_Max (stdDevCPU st) (stdDevRPS st) |}.

(** Lines 474-485: look the device up in the registry, create and insert
    an empty window when it is absent. *)
Definition getOrCreate (a : Analyzer) (deviceID : string)
    : Outcome (Analyzer * MetricWindow) :=
  match windows a !! deviceID with
  | Some window => Ok (a, window)
  | None =>
      window ← newWindow (windowSize a);
      Ok (set_windows a (<[deviceID := window]> (windows a)), window)
  end.

(** [analyze], run by one worker with no other worker interleaved.  The
    window is a pointer in Go and is updated in place; here the updated
    window is written back under its key. *)
Definition analyze (a : Analyzer) (data : MetricData)
    : Outcome (Analyzer * AnalysisResult) :=
  '(a, window) ← getOrCreate a (DeviceID data);
  let window := appendWindow window data in
  let st := windowStats window data in
  Ok (set_windows a (<[DeviceID data := window]> (windows a)),
      mkResult (anomalyThreshold a) data st).

(** *** Queues and lifecycle *)

Definition AddMetric (a : Analyzer) (data : MetricData) : Outcome Analyzer :=
  ch ← select_send_default (metricsChan a) data;
  Ok (set_metricsChan a ch).

(** The zero value a receive yields on a closed, drained channel. *)
Definition zeroMetricData : MetricData :=
  {| DeviceID := EmptyString; Timestamp := 0; CPU := 0%float; RPS := 0%float |}.

(** One iteration of the loop of [processMetrics] by one running worker.
    With the stop channel closed the worker takes the stop case and returns
    ([wg.Done]); otherwise it waits for a reading, analyzes it and offers the
    result to the result queue without blocking.  With no worker running
    nothing moves. *)
Definition processMetrics_step (a : Analyzer) : Outcome Analyzer :=
  match wg a with
  | O => Blocks
  | S n =>
      if closed (stopChan a) then Ok (set_wg a n)
      else
        '(data, ch) ← chan_recv (metricsChan a);
        let data := match data with Some d => d | None => zeroMetricData end in
        '(a, result) ← analyze (set_metricsChan a ch) data;
        rch ← select_send_default (resultsChan a) result;
        Ok (set_resultsChan a rch)
  end.

(** [Stop]: close the stop channel, wait for the workers (each observes the
    closed channel and returns), then close both queues.  The call is taken
    as one step: the readings the workers still dequeue while [Stop] waits
    are worker iterations that come before it in a run. *)
Definition Stop (a : Analyzer) : Outcome Analyzer :=
  sc ← chan_close (stopChan a);
  let a := set_wg (set_stopChan a sc) 0 in
  mc ← chan_close (metricsChan a);
  rc ← chan_close (resultsChan a);
  Ok (set_resultsChan (set_metricsChan a mc) rc).

(** [GetStats]: devices tracked, window size, threshold, queue depth. *)
Definition GetStats (a : Analyzer) : nat * Z * float64 * nat :=
  (size (windows a), windowSize a, anomalyThreshold a, length (buf (metricsChan a))).

(** A consumer's receive on [GetResultsChan()]. *)
Definition recvResult (a : Analyzer) : Outcome (option AnalysisResult * Analyzer) :=
  '(r, ch) ← chan_recv (resultsChan a);
  Ok (r, set_resultsChan a ch).

(** The operations a client or a worker performs on a started engine. *)
Inductive Op :=
  | OpAddMetric (data : MetricData)
  | OpWorker
  | OpRecvResult
  | OpGetStats
  | OpStop.

Definition exec_op (a : Analyzer) (op : Op) : Outcome Analyzer :=
  match op with
  | OpAddMetric data => AddMetric a data
  | OpWorker => processMetrics_step a
  | OpRecvResult => '(_, a) ← recvResult a; Ok a
  | OpGetStats => let _ := GetStats a in Ok a
  | OpStop => Stop a
  end.

(** A suspended operation leaves the engine as it is; a panic ends the run. *)
Fixpoint run (a : Analyzer) (ops : list Op) : Outcome Analyzer :=
  match ops with
  | [] => Ok a
  | op :: ops =>
      match exec_op a op with
      | Ok a' => run a' ops
      | Blocks => run a ops
      | Panic msg => Panic msg
      end
  end.

(** Feeding readings straight to [analyze], collecting the results. *)
Fixpoint analyze_all (a : Analyzer) (readings : list MetricData)
    : Outcome (Analyzer * list AnalysisResult) :=
  match readings with
  | [] => Ok (a, [])
  | data :: rest =>
      '(a, r) ← analyze a data;
      '(a, rs) ← analyze_all a rest;
      Ok (a, r :: rs)
  end.

(** ** The registry under concurrent workers (lines 474-485)

    Several workers run the first statements of [analyze] at once.  Each
    thread advances one statement at a time and a scheduler picks the thread
    that moves next; [a.mu] is a flag that [Lock] can only take when it is
    free.  Windows are heap objects and a pointer is an index into the heap,
    so that two allocations are two distinct instances. *)

Module Conc.

Abbreviation ptr := nat (only parsing).

Inductive pc :=
  | AtLock                      (* before [a.mu.Lock()] *)
  | AtLookup                    (* holds [a.mu], before [a.windows[data.DeviceID]] *)
  | AtBranch (w : option ptr)   (* [window, exists] read, before [if !exists] *)
  | AtInsert (w : ptr)          (* window allocated, before [a.windows[id] = window] *)
  | AtUnlock (w : ptr)          (* before [a.mu.Unlock()] *)
  | Returned (w : ptr).         (* past the unlock, with [window] in hand *)

Record Thread := { t_dev : string; t_pc : pc }.

Record World := {
  mu : bool;
  registry : gmap string ptr;
  heap : list MetricWindow;
  wsize : Z;
  threads : list Thread
}.

Definition update (σ : World) (tid : nat) (t : Thread) (next : pc)
    (mu' : bool) (registry' : gmap string ptr) (heap' : list MetricWindow) : World :=
  {| mu := mu'; registry := registry'; heap := heap'; wsize := wsize σ;
     threads := <[tid := {| t_dev := t_dev t; t_pc := next |}]> (threads σ) |}.

(** One statement of thread [tid]. *)
Definition step (σ : World) (tid : nat) : Outcome World :=
  match threads σ !! tid with
  | None => Blocks
  | Some t =>
      match t_pc t with
      | AtLock =>
          if mu σ then Blocks
          else Ok (update σ tid t AtLookup true (registry σ) (heap σ))
      | AtLookup =>
          Ok (update σ tid t (AtBranch (registry σ !! t_dev t)) (mu σ) (registry σ) (heap σ))
      | AtBranch (Some w) =>
          Ok (update σ tid t (AtUnlock w) (mu σ) (registry σ) (heap σ))
      | AtBranch None =>
          window ← newWindow (wsize σ);
          Ok (update σ tid t (AtInsert (length (heap σ))) (mu σ) (registry σ)
                     (heap σ ++ [window]))
      | AtInsert w =>
          Ok (update σ tid t (AtUnlock w) (mu σ) (<[t_dev t := w]> (registry σ)) (heap σ))
      | AtUnlock w =>
          Ok (update σ tid t (Returned w) false (registry σ) (heap σ))
      | Returned _ => Blocks
      end
  end.

(** A schedule is the list of thread picks; picking a thread that cannot
    move changes nothing. *)
Fixpoint exec (σ : World) (sched : list nat) : Outcome World :=
  match sched with
  | [] => Ok σ
  | tid :: sched =>
      match step σ tid with
      | Ok σ' => exec σ' sched
      | Blocks => exec σ sched
      | Panic msg => Panic msg
      end
  end.

(** [n] workers that all received a reading of device [dev]. *)
Definition spawn (reg : gmap string ptr) (h : list MetricWindow) (ws : Z)
    (dev : string) (n : nat) : World :=
  {| mu := false; registry := reg; heap := h; wsize := ws;
     threads := repeat {| t_dev := dev; t_pc := AtLock |} n |}.

Definition returned (t : Thread) : option ptr :=
  match t_pc t with Returned w => Some w | _ => None end.

Definition all_returned (σ : World) : Prop :=
  Forall (fun t => is_Some (returned t)) (threads σ).

(** *** The invariant of a race for one device *)

Section Invariant.

(** All workers ask for the same device [dev], absent from the registry at
    the start, when the heap holds [h0] windows. *)
Variable dev : string.
Variable h0 : nat.

(** A thread between [Lock] and [Unlock] holds the mutex. *)
Definition holder (t : Thread) : bool :=
  match t_pc t with
  | AtLock | Returned _ => false
  | _ => true
  end.

Definition at_insert (t : Thread) : bool :=
  match t_pc t with AtInsert _ => true | _ => false end.

(** Steps a thread still has to take. *)
Definition remaining (t : Thread) : nat :=
  match t_pc t with
  | AtLock => 5
  | AtLookup => 4
  | AtBranch _ => 3
  | AtInsert _ => 2
  | AtUnlock _ => 1
  | Returned _ => 0
  end.

Definition measure (σ : World) : nat := list_sum (map remaining (threads σ)).

(** What a thread knows at each program point. *)
Definition thread_inv (σ : World) (t : Thread) : Prop :=
  t_dev t = dev /\
  match t_pc t with
  | AtLock => True
  | AtLookup => mu σ = true
  | AtBranch w => mu σ = true /\ w = registry σ !! dev
  | AtInsert w =>
      mu σ = true /\ w = h0 /\ registry σ !! dev = None /\ length (heap σ) = S h0
  | AtUnlock w =>
      mu σ = true /\ w = h0 /\ registry σ !! dev = Some h0 /\ length (heap σ) = S h0
  | Returned w =>
      w = h0 /\ registry σ !! dev = Some h0 /\ length (heap σ) = S h0
  end.

Record inv (σ : World) : Prop := {
  inv_threads : forall i t, threads σ !! i = Some t -> thread_inv σ t;
  inv_excl : forall i j ti tj,
      threads σ !! i = Some ti -> threads σ !! j = Some tj ->
      holder ti = true -> holder tj = true -> i = j;
  inv_free : mu σ = false ->
             forall i t, threads σ !! i = Some t -> holder t = false;
  inv_held : mu σ = true ->
             exists i t, threads σ !! i = Some t /\ holder t = true;
  inv_reg : registry σ !! dev = None \/ registry σ !! dev = Some h0;
  inv_fresh : registry σ !! dev = None ->
              (forall i t, threads σ !! i = Some t -> at_insert t = false) ->
              length (heap σ) = h0;
  inv_created : registry σ !! dev = Some h0 -> length (heap σ) = S h0;
  inv_ws : 0 <= wsize σ
}.

End Invariant.

End Conc.

(** The population standard deviation in the words of the specification:
    [sqrt(sum((x - mean)^2) / n)], the sum taken left to right from [0]. *)
Definition fsum (l : list float64) : float64 :=
  fold_left (fun s x => (s + x)%float) l 0%float.

Definition population_stddev (values : list float64) (mean : float64) : float64 :=
  let n := float64_of_int (Z.of_nat (length values)) in
  math_Sqrt (fsum (map (fun x => ((x - mean) * (x - mean))%float) values) / n)%float.

(** ** Notions the statements below are phrased with *)

(** The number one in the binary64 format of the standard library's
    specification: mantissa 2^52, exponent -52. *)
Definition SFone : spec_float := S754_finite false 4503599627370496 (-52).

(** The window a reading of [dev] is appended to: the registered one, or
    the empty window [analyze] creates for a device it has not seen. *)
Definition window_of (a : Analyzer) (dev : string) : MetricWindow :=
  default {| cpuValues := []; rpsValues := []; timestamps := [];
             maxSize := windowSize a |} (windows a !! dev).

(** The three sequences run in parallel and fit the capacity. *)
Definition window_ok (ws : Z) (w : MetricWindow) : Prop :=
  length (cpuValues w) = length (rpsValues w) /\
  length (cpuValues w) = length (timestamps w) /\
  Z.of_nat (length (cpuValues w)) <= ws /\
  maxSize w = ws.

Definition registry_ok (a : Analyzer) : Prop :=
  forall dev w, windows a !! dev = Some w -> window_ok (windowSize a) w.

(** A reading of device [dev]. *)
Definition reading (dev : string) (t : Time) (cpu rps : float64) : MetricData :=
  {| DeviceID := dev; Timestamp := t; CPU := cpu; RPS := rps |}.

(** A quiet reading, and the analyzer after nine of them in a window of
    fifty: the state the examples below start from. *)
Definition quiet_reading : MetricData :=
  {| DeviceID := "dev-1"; Timestamp := 0; CPU := 10%float; RPS := 10%float |}.

Definition warm_analyzer : Analyzer :=
  match analyze_all (NewAnalyzer 50 2%float) (repeat quiet_reading 9) with
  | Ok (a, _) => a
  | _ => NewAnalyzer 50 2%float
  end.

(** An engine whose ingestion queue holds 1000 readings. *)
Definition saturated_analyzer : Analyzer :=
  match run (Start (NewAnalyzer 50 2%float) 4) (repeat (OpAddMetric quiet_reading) 1000) with
  | Ok a => a
  | _ => NewAnalyzer 50 2%float
  end.

(** After [Stop], only workers, result consumers and [GetStats] may act. *)
Definition quiet_op (op : Op) : bool :=
  match op with
  | OpAddMetric _ | OpStop => false
  | OpWorker | OpRecvResult | OpGetStats => true
  end.

(** A sequence of operations follows the lifecycle when nothing is
    submitted, and [Stop] is not called again, after a [Stop]. *)
Fixpoint lifecycle_ok (ops : list Op) : bool :=
  match ops with
  | [] => true
  | OpStop :: rest => forallb quiet_op rest
  | _ :: rest => lifecycle_ok rest
  end.

Definition running (a : Analyzer) : Prop :=
  closed (stopChan a) = false /\ closed (metricsChan a) = false /\
  closed (resultsChan a) = false /\ 0 <= windowSize a.

Definition stopped (a : Analyzer) : Prop :=
  closed (stopChan a) = true /\ closed (metricsChan a) = true /\
  closed (resultsChan a) = true /\ wg a = 0%nat.

Definition is_stop (op : Op) : bool :=
  match op with OpStop => true | _ => false end.

(** ** The history of a device

    What the statements about the contents of a window are phrased with:
    the readings of one device among those processed so far, and the window
    that holds the last [ws] of them. *)

Definition readings_of (dev : string) (readings : list MetricData) : list MetricData :=
  filter (fun d => DeviceID d = dev) readings.

Definition last_n {A} (n : Z) (l : list A) : list A :=
  drop (length l - Z.to_nat n) l.

Definition window_from (ws : Z) (l : list MetricData) : MetricWindow :=
  {| cpuValues := last_n ws (map CPU l);
     rpsValues := last_n ws (map RPS l);
     timestamps := last_n ws (map Timestamp l);
     maxSize := ws |}.

(** The analyzer has processed exactly the readings [hist]. *)
Definition tracks (ws : Z) (a : Analyzer) (hist : list MetricData) : Prop :=
  windowSize a = ws /\
  forall dev,
    windows a !! dev =
      match readings_of dev hist with
      | [] => None
      | _ :: _ => Some (window_from ws (readings_of dev hist))
      end.

(** ** Queue bounds and the consumer loop *)

(** A channel holds no more than its capacity. *)
Definition chan_within {A} (ch : Chan A) : Prop := (length (buf ch) <= cap ch)%nat.

(** Both queues are within their capacity of 1000. *)
Definition queues_bounded (a : Analyzer) : Prop :=
  chan_within (metricsChan a) /\ cap (metricsChan a) = 1000%nat /\
  chan_within (resultsChan a) /\ cap (resultsChan a) = 1000%nat.

(** [for result := range analyzer.GetResultsChan()] (processAnalysisResults
    in main): receive until the channel is closed and drained, collecting
    what was received.  [fuel] bounds the number of receives; a receive on
    the open, empty channel suspends the loop. *)
Fixpoint range_results (fuel : nat) (a : Analyzer)
    : Outcome (list AnalysisResult * Analyzer) :=
  match fuel with
  | O => Blocks
  | S fuel =>
      '(r, a) ← recvResult a;
      match r with
      | None => Ok ([], a)
      | Some r => '(rs, a) ← range_results fuel a; Ok (r :: rs, a)
      end
  end.

(** ** The collaborators' side: effects

    Calls that leave the process (Prometheus instruments, goroutines that
    write to Redis) are recorded, in program order, as a trace.  A histogram
    observation records an elapsed time, which the trace leaves out. *)

(** [models.Metric], the decoded request body (lines 6-12). *)
Record Metric := {
  mTimestamp : Time;
  mDeviceID : string;
  mCPU : float64;
  mRPS : float64;
  mMemory : float64
}.

Inductive Effect :=
  | CounterInc (name : string) (labels : list string)
  | GaugeSet (name : string) (labels : list string) (v : float64)
  | HistogramObserve (name : string) (labels : list string)
  | GoStoreMetric (m : Metric)
  | GoStoreAnalysis (r : AnalysisResult)
  | GoStoreAnomaly (r : AnalysisResult).

(** ** The consumer of results (processAnalysisResults, main) *)

(** The body of the loop, for one result. *)
Definition handleResult (result : AnalysisResult) : list Effect :=
  [ GaugeSet "rolling_average" [rDeviceID result; "cpu"%string] (RollingAvgCPU result);
    GaugeSet "rolling_average" [rDeviceID result; "rps"%string] (RollingAvgRPS result);
    GaugeSet "current_zscore" [rDeviceID result; "combined"%string] (AnomalyScore result);
    GoStoreAnalysis result ]
  ++ (if IsAnomaly result
      then [ CounterInc "anomalies_detected_total" [AnomalyType result; rDeviceID result];
             GoStoreAnomaly result ]
      else [])
  ++ [ HistogramObserve "analysis_latency_seconds" [] ].

(** The loop [for result := range resultsChan], with at most [fuel]
    receives: it returns when the channel is closed and drained. *)
Fixpoint processAnalysisResults (fuel : nat) (a : Analyzer)
    : Outcome (list Effect * Analyzer) :=
  match fuel with
  | O => Blocks
  | S fuel =>
      '(r, a) ← recvResult a;
      match r with
      | None => Ok ([], a)
      | Some result =>
          '(effects, a) ← processAnalysisResults fuel a;
          Ok (handleResult result ++ effects, a)
      end
  end.

Definition stored_analyses (effects : list Effect) : list AnalysisResult :=
  omap (fun e => match e with GoStoreAnalysis r => Some r | _ => None end) effects.

Definition stored_anomalies (effects : list Effect) : list AnalysisResult :=
  omap (fun e => match e with GoStoreAnomaly r => Some r | _ => None end) effects.

Definition anomaly_counts (effects : list Effect) : list (list string) :=
  omap (fun e => match e with
                 | CounterInc "anomalies_detected_total" labels => Some labels
                 | _ => None
                 end) effects.

(** ** The request layer (package handlers, SubmitMetric and
    BatchSubmitMetrics)

    A request is its method and what [json.Decode] made of its body
    ([None] when decoding failed); the response is its status code and
    body.  [time.Now()] is an input. *)

Inductive JsonValue :=
  | JString (s : string)
  | JInt (n : Z).

Inductive Body :=
  | ErrorText (msg : string)                      (* [http.Error] *)
  | JsonObject (fields : list (string * JsonValue)). (* an encoded map *)

Record Response := { status : Z; body : Body }.

Definition IsZero (t : Time) : bool := t =? 0.

Definition with_timestamp (m : Metric) (t : Time) : Metric :=
  {| mTimestamp := t; mDeviceID := mDeviceID m; mCPU := mCPU m;
     mRPS := mRPS m; mMemory := mMemory m |}.

(** The [analytics.MetricData] the handlers build from a metric. *)
Definition toMetricData (m : Metric) : MetricData :=
  {| DeviceID := mDeviceID m; Timestamp := mTimestamp m;
     CPU := mCPU m; RPS := mRPS m |}.

Definition requestsTotal (method endpoint code : string) : Effect :=
  CounterInc "http_requests_total" [method; endpoint; code].

Definition requestDuration (method endpoint : string) : Effect :=
  HistogramObserve "http_request_duration_seconds" [method; endpoint].

(** [SubmitMetric] (lines 63-122).  The deferred duration observation
    comes last in the trace.  A call in which [AddMetric] panics has the
    panic as its outcome; its trace is not recorded. *)
Definition SubmitMetric (a : Analyzer) (method : string) (decoded : option Metric)
    (now : Time) : Outcome (Analyzer * Response * list Effect) :=
  if negb (String.eqb method "POST") then
    Ok (a, {| status := 405; body := ErrorText "Method not allowed" |},
        [requestsTotal method "/metrics" "405"; requestDuration method "/metrics"])
  else
    match decoded with
    | None =>
        Ok (a, {| status := 400; body := ErrorText "Invalid JSON" |},
            [requestsTotal method "/metrics" "400"; requestDuration method "/metrics"])
    | Some metric =>
        let metric :=
          if IsZero (mTimestamp metric) then with_timestamp metric now else metric in
        if String.eqb (mDeviceID metric) "" then
          Ok (a, {| status := 400; body := ErrorText "device_id is required" |},
              [requestsTotal method "/metrics" "400"; requestDuration method "/metrics"])
        else
          a ← AddMetric a (toMetricData metric);
          Ok (a,
              {| status := 200;
                 body := JsonObject [("device_id", JString (mDeviceID metric));
                                     ("status", JString "accepted")]%string |},
              [GoStoreMetric metric;
               CounterInc "metrics_received_total" [];
               requestsTotal method "/metrics" "200";
               requestDuration method "/metrics"])
    end.

(** The loop of [BatchSubmitMetrics] (lines 222-245); [now i] is the clock
    when entry [i] is handled. *)
Fixpoint batch_loop (a : Analyzer) (now : nat -> Time) (i : nat)
    (batchMetrics : list Metric) (accepted : Z)
    : Outcome (Analyzer * Z * list Effect) :=
  match batchMetrics with
  | [] => Ok (a, accepted, [])
  | metric :: rest =>
      if String.eqb (mDeviceID metric) "" then batch_loop a now (S i) rest accepted
      else
        let metric :=
          if IsZero (mTimestamp metric) then with_timestamp metric (now i) else metric in
        a ← AddMetric a (toMetricData metric);
        '(a, accepted, effects) ← batch_loop a now (S i) rest (accepted + 1);
        Ok (a, accepted,
            GoStoreMetric metric :: CounterInc "metrics_received_total" [] :: effects)
  end.

(** [BatchSubmitMetrics] (lines 201-256). *)
Definition BatchSubmitMetrics (a : Analyzer) (method : string)
    (decoded : option (list Metric)) (now : nat -> Time)
    : Outcome (Analyzer * Response * list Effect) :=
  if negb (String.eqb method "POST") then
    Ok (a, {| status := 405; body := ErrorText "Method not allowed" |},
        [requestsTotal method "/metrics/batch" "405";
         requestDuration method "/metrics/batch"])
  else
    match decoded with
    | None =>
        Ok (a, {| status := 400; body := ErrorText "Invalid JSON" |},
            [requestsTotal method "/metrics/batch" "400";
             requestDuration method "/metrics/batch"])
    | Some batchMetrics =>
        '(a, accepted, effects) ← batch_loop a now 0 batchMetrics 0;
        Ok (a,
            {| status := 200;
               body := JsonObject [("accepted", JInt accepted);
                                   ("status", JString "accepted");
                                   ("total", JInt (Z.of_nat (length batchMetrics)))]%string |},
            effects ++ [requestsTotal method "/metrics/batch" "200";
                        requestDuration method "/metrics/batch"])
    end.

(** The entries of a batch that carry a device identifier, in order, each
    with its timestamp set when it was zero: what the loop of
    [BatchSubmitMetrics] hands on. *)
Fixpoint batch_entries (now : nat -> Time) (i : nat) (batchMetrics : list Metric)
    : list Metric :=
  match batchMetrics with
  | [] => []
  | metric :: rest =>
      if String.eqb (mDeviceID metric) "" then batch_entries now (S i) rest
      else (if IsZero (mTimestamp metric) then with_timestamp metric (now i) else metric)
           :: batch_entries now (S i) rest
  end.

Definition stored_metrics (effects : list Effect) : list Metric :=
  omap (fun e => match e with GoStoreMetric m => Some m | _ => None end) effects.

(** * Properties *)

(** ** binary64 facts

    The primitive operations are specified on [spec_float] by the standard
    library; the lemmas below are the few exact identities the cold-start
    behaviour of the analyzer rests on. *)

Module F64.

Lemma Prim2SF_zero : Prim2SF 0%float = S754_zero false.
Proof. reflexivity. Qed.

Lemma Prim2SF_one : Prim2SF 1%float = SFone.
Proof. vm_compute. reflexivity. Qed.

Lemma Prim2SF_nan : Prim2SF nan = S754_nan.
Proof. reflexivity. Qed.

Lemma float64_of_int_1 : float64_of_int 1 = 1%float.
Proof. reflexivity. Qed.

(** Dividing a finite number by one is exact. *)
Lemma SFdiv_one s m e :
  valid_binary (S754_finite s m e) = true ->
  SF64div (S754_finite s m e) SFone = S754_finite s m e.
Proof.
  unfold valid_binary, SpecFloat.valid_binary, bounded, canonical_mantissa, fexp, SFone.
  change (SpecFloat.emin prec emax) with (-1074).
  change prec with 53. change emax with 1024.
  intros H. apply andb_true_iff in H as [Hc Hb].
  apply Z.eqb_eq in Hc. apply Z.leb_le in Hb.
  unfold SF64div, SFdiv, SFdiv_core_binary.
  change (Zdigits2 (Z.pos m)) with (Z.pos (digits2_pos m)).
  change (Zdigits2 (Z.pos 4503599627370496)) with 53.
  unfold fexp. change (SpecFloat.emin prec emax) with (-1074).
  change prec with 53. change emax with 1024.
  set (d := Z.pos (digits2_pos m)) in *.
  rewrite xorb_false_r.
  assert (Hdiv : forall p : Z, 0 < p ->
            Z.div_eucl (Z.pos m * p * 4503599627370496) (Z.pos 4503599627370496)
            = (Z.pos m * p, 0)).
  { intros p Hp.
    generalize (Z.div_eucl_eq (Z.pos m * p * 4503599627370496) (Z.pos 4503599627370496)).
    generalize (Z.mod_pos_bound (Z.pos m * p * 4503599627370496) (Z.pos 4503599627370496)).
    unfold Z.modulo.
    destruct (Z.div_eucl (Z.pos m * p * 4503599627370496) (Z.pos 4503599627370496)) as [q r].
    intros Hr Hqr. f_equal; nia. }
  destruct (Z.eq_dec e (-1074)) as [He|He].
  - replace (Z.min (Z.max (d + e - (53 + -52) - 53) (-1074)) (e - -52)) with e by lia.
    replace (e - -52 - e) with 52 by lia.
    rewrite Z.shiftl_mul_pow2 by lia.
    change (2 ^ 52) with (1 * 4503599627370496). rewrite Z.mul_assoc.
    rewrite Hdiv by lia. rewrite Z.mul_1_r.
    unfold binary_round_aux, shr_fexp, fexp.
    change (SpecFloat.emin 53 1024) with (-1074).
    change (Zdigits2 (Z.pos m)) with d.
    cbn [new_location Z.even new_location_even Z.eqb shr_record_of_loc].
    replace (Z.max (d + e - 53) (-1074) - e) with 0 by lia.
    cbn [shr shr_m loc_of_shr_record round_nearest_even shr_record_of_loc].
    change (Zdigits2 (Z.pos m)) with d.
    replace (Z.max (d + e - 53) (-1074) - e) with 0 by lia.
    cbn [shr shr_m].
    replace (e <=? 1024 - 53) with true by (symmetry; apply Z.leb_le; lia).
    reflexivity.
  - replace (Z.min (Z.max (d + e - (53 + -52) - 53) (-1074)) (e - -52)) with (e - 1) by lia.
    replace (e - -52 - (e - 1)) with 53 by lia.
    rewrite Z.shiftl_mul_pow2 by lia.
    change (2 ^ 53) with (2 * 4503599627370496). rewrite Z.mul_assoc.
    rewrite Hdiv by lia. rewrite Z.mul_comm.
    change (2 * Z.pos m) with (Z.pos m~0).
    unfold binary_round_aux, shr_fexp, fexp.
    change (SpecFloat.emin 53 1024) with (-1074).
    change (Zdigits2 (Z.pos m~0)) with (Z.pos (Pos.succ (digits2_pos m))).
    rewrite Pos2Z.inj_succ. fold d.
    cbn [new_location Z.even new_location_even Z.eqb shr_record_of_loc].
    replace (Z.max (Z.succ d + (e - 1) - 53) (-1074) - (e - 1)) with 1 by lia.
    cbn [shr shr_m SpecFloat.iter_pos shr_1 orb loc_of_shr_record round_nearest_even
         shr_record_of_loc].
    change (Zdigits2 (Z.pos m)) with d.
    replace (e - 1 + 1) with e by lia.
    replace (Z.max (d + e - 53) (-1074) - e) with 0 by lia.
    cbn [shr shr_m].
    replace (e <=? 1024 - 53) with true by (symmetry; apply Z.leb_le; lia).
    reflexivity.
Qed.

(** A finite number minus itself is [+0]. *)
Lemma SFsub_diag s m e :
  SF64sub (S754_finite s m e) (S754_finite s m e) = S754_zero false.
Proof.
  unfold SF64sub, SFsub, shl_align.
  rewrite Z.min_id, !Z.sub_diag. reflexivity.
Qed.

(** *** Comparison *)

Lemma SFcompare_refl x : x <> S754_nan -> SFcompare x x = Some Eq.
Proof.
  destruct x as [s|s| |s m e]; cbn; intros Hx; try congruence.
  - destruct s; reflexivity.
  - destruct s; rewrite Z.compare_refl, Pos.compare_cont_refl; reflexivity.
Qed.

Lemma SFcompare_antisym x y :
  SFcompare y x = option_map CompOpp (SFcompare x y).
Proof.
  destruct x as [sx|sx| |sx mx ex], y as [sy|sy| |sy my ey]; cbn;
    try reflexivity;
    try (destruct sx; reflexivity); try (destruct sy; reflexivity);
    try (destruct sx, sy; reflexivity).
  assert (Hm : Pos.compare_cont Eq my mx = CompOpp (Pos.compare_cont Eq mx my))
    by (rewrite (Pos.compare_cont_antisym mx my Eq); reflexivity).
  destruct sx, sy; cbn; try reflexivity;
    rewrite (Z.compare_antisym ex ey), Hm;
    destruct (ex ?= ey); cbn; rewrite ?CompOpp_involutive; reflexivity.
Qed.

Lemma SFcompare_Some x y :
  x <> S754_nan -> y <> S754_nan -> exists c, SFcompare x y = Some c.
Proof. destruct x, y; cbn; intros Hx Hy; try congruence; eauto. Qed.

Lemma is_nan_spec x :
  is_nan x = match Prim2SF x with S754_nan => true | _ => false end.
Proof.
  unfold is_nan. rewrite FloatAxioms.eqb_spec. unfold SFeqb.
  destruct (Prim2SF x) eqn:E; try reflexivity;
    rewrite SFcompare_refl by congruence; reflexivity.
Qed.

Lemma not_nan_SF x : is_nan x = false -> Prim2SF x <> S754_nan.
Proof. rewrite is_nan_spec. intros H E. rewrite E in H. discriminate. Qed.

Lemma ltb_not_nan x y :
  (x <? y)%float = true -> is_nan x = false /\ is_nan y = false.
Proof.
  rewrite FloatAxioms.ltb_spec, !is_nan_spec. unfold SFltb.
  destruct (Prim2SF x), (Prim2SF y); cbn; try discriminate; auto.
Qed.

Lemma leb_refl x : is_nan x = false -> (x <=? x)%float = true.
Proof.
  intros Hx. rewrite FloatAxioms.leb_spec. unfold SFleb.
  rewrite SFcompare_refl by (by apply not_nan_SF). reflexivity.
Qed.

Lemma eqb_leb x y :
  (x =? y)%float = true -> (x <=? y)%float = true /\ (y <=? x)%float = true.
Proof.
  rewrite FloatAxioms.eqb_spec, !FloatAxioms.leb_spec. unfold SFeqb, SFleb.
  rewrite (SFcompare_antisym (Prim2SF x) (Prim2SF y)).
  destruct (SFcompare (Prim2SF x) (Prim2SF y)) as [[]|]; cbn; try discriminate; auto.
Qed.

Lemma ltb_leb x y : (x <? y)%float = true -> (x <=? y)%float = true.
Proof.
  rewrite FloatAxioms.ltb_spec, FloatAxioms.leb_spec. unfold SFltb, SFleb.
  destruct (SFcompare (Prim2SF x) (Prim2SF y)) as [[]|]; cbn; try discriminate; auto.
Qed.

Lemma not_ltb_leb x y :
  is_nan x = false -> is_nan y = false ->
  (y <? x)%float = false -> (x <=? y)%float = true.
Proof.
  intros Hx%not_nan_SF Hy%not_nan_SF.
  rewrite FloatAxioms.ltb_spec, FloatAxioms.leb_spec. unfold SFltb, SFleb.
  rewrite (SFcompare_antisym (Prim2SF x) (Prim2SF y)).
  destruct (SFcompare_Some _ _ Hx Hy) as [c ->].
  destruct c; cbn; try discriminate; auto.
Qed.

Lemma eqb_infinity x : (x =? infinity)%float = true -> x = infinity.
Proof.
  rewrite FloatAxioms.eqb_spec. intros H. apply Prim2SF_inj.
  change (Prim2SF infinity) with (S754_infinity false) in *.
  unfold SFeqb in H.
  destruct (Prim2SF x) as [s|s| |s m e]; try destruct s; cbn in H;
    try discriminate; reflexivity.
Qed.

Lemma leb_infinity x : is_nan x = false -> (x <=? infinity)%float = true.
Proof.
  intros Hx%not_nan_SF. rewrite FloatAxioms.leb_spec.
  change (Prim2SF infinity) with (S754_infinity false).
  unfold SFleb. destruct (Prim2SF x) as [s|s| |s m e]; cbn; try congruence;
    destruct s; reflexivity.
Qed.

(** On numbers, [math.Max] returns one of its arguments, and that one is
    not below the other. *)
Lemma math_Max_spec x y :
  is_nan x = false -> is_nan y = false ->
  (math_Max x y = x \/ math_Max x y = y) /\
  (x <=? math_Max x y)%float = true /\ (y <=? math_Max x y)%float = true.
Proof.
  intros Hx Hy. unfold math_Max.
  destruct (x =? infinity)%float eqn:Hxi; cbn [orb].
  { apply eqb_infinity in Hxi. subst x.
    split; [by left |]. split; [reflexivity | by apply leb_infinity]. }
  destruct (y =? infinity)%float eqn:Hyi; cbn [orb].
  { apply eqb_infinity in Hyi. subst y.
    split; [by right |]. split; [by apply leb_infinity | reflexivity]. }
  rewrite Hx, Hy. cbn [orb].
  destruct ((x =? 0) && (x =? y))%float eqn:Hz.
  { apply andb_true_iff in Hz as [_ Hxy]. apply eqb_leb in Hxy as [Hxy Hyx].
    destruct (get_sign x).
    - split; [by right |]. split; [done | by apply leb_refl].
    - split; [by left |]. split; [by apply leb_refl | done]. }
  unfold fgt. destruct (y <? x)%float eqn:Hlt.
  - split; [by left |]. split; [by apply leb_refl | by apply ltb_leb].
  - split; [by right |]. split; [by apply not_ltb_leb | by apply leb_refl].
Qed.

(** *** Finite numbers *)

Lemma is_finite_SF x :
  is_finite x = true ->
  (exists s, Prim2SF x = S754_zero s) \/ (exists s m e, Prim2SF x = S754_finite s m e).
Proof.
  unfold is_finite. intros H. apply negb_true_iff, orb_false_iff in H as [Hn Hi].
  unfold Prim2SF. rewrite Hn, Hi.
  destruct (is_zero x); [eauto |].
  destruct (Z.frexp x) as [r ex].
  destruct (shr_fexp prec emax _ _ _) as [sh e'].
  destruct (shr_m sh); eauto.
Qed.

Lemma is_finite_not_nan x : is_finite x = true -> is_nan x = false.
Proof.
  unfold is_finite. intros H. by apply negb_true_iff, orb_false_iff in H as [Hn _].
Qed.

End F64.

(** ** The window and the registry *)

Lemma make_slice_Ok {A} n : 0 <= n -> @make_slice A n = Ok [].
Proof. intros Hn. unfold make_slice. destruct (Z.ltb_spec n 0); [lia | done]. Qed.

Lemma make_slice_Panic {A} n l : @make_slice A n = Ok l -> 0 <= n /\ l = [].
Proof.
  unfold make_slice. destruct (Z.ltb_spec n 0); [discriminate |].
  intros [= <-]. auto.
Qed.

Lemma newWindow_Ok ws :
  0 <= ws ->
  newWindow ws = Ok {| cpuValues := []; rpsValues := []; timestamps := [];
                       maxSize := ws |}.
Proof.
  intros Hws. unfold newWindow.
  rewrite (make_slice_Ok (A:=float)), (make_slice_Ok (A:=Time)) by done.
  reflexivity.
Qed.

Lemma newWindow_inv ws w :
  newWindow ws = Ok w ->
  0 <= ws /\ w = {| cpuValues := []; rpsValues := []; timestamps := [];
                    maxSize := ws |}.
Proof.
  intros H. destruct (Z.ltb_spec ws 0) as [Hlt|Hge].
  - unfold newWindow, make_slice in H.
    destruct (Z.ltb_spec ws 0); [discriminate | lia].
  - rewrite newWindow_Ok in H by done. by injection H as <-.
Qed.

(** What [analyze] returns, whenever it returns. *)
Lemma analyze_inv a data a' r :
  analyze a data = Ok (a', r) ->
  let w' := appendWindow (window_of a (DeviceID data)) data in
  (is_Some (windows a !! DeviceID data) \/ 0 <= windowSize a) /\
  a' = set_windows a (<[DeviceID data := w']> (windows a)) /\
  r = mkResult (anomalyThreshold a) data (windowStats w' data).
Proof.
  unfold analyze, getOrCreate, window_of.
  destruct (windows a !! DeviceID data) as [w|] eqn:Hw; cbn.
  - intros [= <- <-]. eauto.
  - destruct (newWindow (windowSize a)) as [w0| |msg] eqn:Hnew; cbn; try discriminate.
    apply newWindow_inv in Hnew as [Hws ->].
    intros [= <- <-]. split; [by right |].
    split; [| done]. unfold set_windows; cbn. by rewrite insert_insert_eq.
Qed.

(** [analyze] returns as soon as the device is known or the configured
    window size is not negative. *)
Lemma analyze_Ok a data :
  is_Some (windows a !! DeviceID data) \/ 0 <= windowSize a ->
  let w' := appendWindow (window_of a (DeviceID data)) data in
  analyze a data =
    Ok (set_windows a (<[DeviceID data := w']> (windows a)),
        mkResult (anomalyThreshold a) data (windowStats w' data)).
Proof.
  intros Hok. unfold analyze, getOrCreate, window_of.
  destruct (windows a !! DeviceID data) as [w|] eqn:Hw; cbn; [done |].
  destruct Hok as [[? [=]] | Hws].
  rewrite newWindow_Ok by done. cbn.
  unfold set_windows; cbn. by rewrite insert_insert_eq.
Qed.

(** A negative window size makes the first reading of any device panic. *)
Lemma analyze_negative_windowSize a data :
  windowSize a < 0 -> windows a !! DeviceID data = None ->
  analyze a data = Panic "makeslice: cap out of range".
Proof.
  intros Hws Hw. unfold analyze, getOrCreate. rewrite Hw.
  unfold newWindow, make_slice. destruct (Z.ltb_spec (windowSize a) 0); [done | lia].
Qed.

Lemma window_of_ok a dev :
  0 <= windowSize a -> registry_ok a -> window_ok (windowSize a) (window_of a dev).
Proof.
  intros Hws Ha. unfold window_of.
  destruct (windows a !! dev) as [w|] eqn:Hw; cbn; [by eapply Ha |].
  repeat split; cbn; lia.
Qed.

Lemma appendWindow_ok ws w data :
  window_ok ws w -> window_ok ws (appendWindow w data).
Proof.
  intros (Hr & Ht & Hle & Hmax). unfold appendWindow. rewrite Hmax.
  destruct (Z.gtb_spec (Z.of_nat (length (cpuValues w ++ [CPU data]))) ws) as [Hgt|Hgt];
    repeat split; cbn; rewrite ?length_drop, ?length_app in *; cbn in *; lia.
Qed.

(** The two cases of the update: room left, or full. *)
Lemma appendWindow_room ws w data :
  window_ok ws w -> Z.of_nat (length (cpuValues w)) < ws ->
  appendWindow w data =
    {| cpuValues := cpuValues w ++ [CPU data];
       rpsValues := rpsValues w ++ [RPS data];
       timestamps := timestamps w ++ [Timestamp data];
       maxSize := ws |}.
Proof.
  intros (Hr & Ht & Hle & Hmax) Hlt. unfold appendWindow. rewrite Hmax.
  destruct (Z.gtb_spec (Z.of_nat (length (cpuValues w ++ [CPU data]))) ws) as [Hgt|Hgt];
    [| done].
  rewrite length_app in Hgt; cbn in Hgt; lia.
Qed.

Lemma appendWindow_full ws w data :
  window_ok ws w -> Z.of_nat (length (cpuValues w)) = ws ->
  appendWindow w data =
    {| cpuValues := drop 1 (cpuValues w ++ [CPU data]);
       rpsValues := drop 1 (rpsValues w ++ [RPS data]);
       timestamps := drop 1 (timestamps w ++ [Timestamp data]);
       maxSize := ws |}.
Proof.
  intros (Hr & Ht & Hle & Hmax) Hlt. unfold appendWindow. rewrite Hmax.
  destruct (Z.gtb_spec (Z.of_nat (length (cpuValues w ++ [CPU data]))) ws) as [Hgt|Hgt];
    [done |].
  rewrite length_app in Hgt; cbn in Hgt; lia.
Qed.

Lemma analyze_registry_ok a data a' r :
  registry_ok a -> analyze a data = Ok (a', r) ->
  registry_ok a' /\ windowSize a' = windowSize a /\
  anomalyThreshold a' = anomalyThreshold a.
Proof.
  intros Ha H. apply analyze_inv in H as (Hdom & -> & _). cbn.
  split; [| done].
  assert (Hw : window_ok (windowSize a) (window_of a (DeviceID data))).
  { unfold window_of. destruct (windows a !! DeviceID data) as [w|] eqn:Hw; cbn.
    - by eapply Ha.
    - destruct Hdom as [[? [=]] | Hws]. repeat split; cbn; lia. }
  intros dev w. cbn. rewrite lookup_insert.
  case_decide as Hd.
  - intros [= <-]. by apply appendWindow_ok.
  - apply Ha.
Qed.

Lemma NewAnalyzer_ok ws T : registry_ok (NewAnalyzer ws T).
Proof. intros dev w. cbn. by rewrite lookup_empty. Qed.

Lemma analyze_all_registry_ok readings :
  forall a a' rs,
    registry_ok a -> analyze_all a readings = Ok (a', rs) ->
    registry_ok a' /\ windowSize a' = windowSize a /\
    anomalyThreshold a' = anomalyThreshold a.
Proof.
  induction readings as [|data rest IH]; intros a a' rs Ha; cbn.
  - intros [= <- <-]. auto.
  - destruct (analyze a data) as [[a1 r]| |] eqn:H1; cbn; try discriminate.
    destruct (analyze_all a1 rest) as [[a2 rs2]| |] eqn:H2; cbn; try discriminate.
    intros [= <- <-].
    destruct (analyze_registry_ok _ _ _ _ Ha H1) as (Ha1 & Hws1 & HT1).
    destruct (IH _ _ _ Ha1 H2) as (Ha2 & Hws2 & HT2).
    split; [done | split; congruence].
Qed.

Lemma analyze_all_Ok readings :
  forall a, 0 <= windowSize a ->
    exists a' rs, analyze_all a readings = Ok (a', rs).
Proof.
  induction readings as [|data rest IH]; intros a Hws; cbn.
  - eauto.
  - rewrite analyze_Ok by auto. cbn.
    match goal with
    | |- context [analyze_all ?a1 rest] => destruct (IH a1) as (a2 & rs & ->)
    end; [done |].
    cbn. eauto.
Qed.

(** C1. For every device and every sequence of readings fed to [analyze]
    (each one an append to its device's window), the three parallel
    sequences of every window (CPU values, request-rate values, timestamps)
    have one length, at most [windowSize], after every append; and one more
    append to a window with room leaves nothing out, while an append to a
    full window discards exactly index 0 of each sequence. *)
Theorem C1_window_bounded_fifo (ws : Z) (T : float64) (readings : list MetricData) :
  0 <= ws ->
  exists a rs,
    analyze_all (NewAnalyzer ws T) readings = Ok (a, rs) /\
    (forall dev w, windows a !! dev = Some w ->
       length (rpsValues w) = length (cpuValues w) /\
       length (timestamps w) = length (cpuValues w) /\
       Z.of_nat (length (cpuValues w)) <= ws /\
       Z.of_nat (length (rpsValues w)) <= ws /\
       Z.of_nat (length (timestamps w)) <= ws) /\
    forall data, exists a' r w',
      analyze a data = Ok (a', r) /\
      windows a' !! DeviceID data = Some w' /\
      let w := window_of a (DeviceID data) in
      Z.of_nat (length (cpuValues w)) <= ws /\
      (Z.of_nat (length (cpuValues w)) < ws ->
         cpuValues w' = cpuValues w ++ [CPU data] /\
         rpsValues w' = rpsValues w ++ [RPS data] /\
         timestamps w' = timestamps w ++ [Timestamp data]) /\
      (Z.of_nat (length (cpuValues w)) = ws ->
         cpuValues w' = drop 1 (cpuValues w ++ [CPU data]) /\
         rpsValues w' = drop 1 (rpsValues w ++ [RPS data]) /\
         timestamps w' = drop 1 (timestamps w ++ [Timestamp data])).
Proof.
  intros Hws.
  destruct (analyze_all_Ok readings (NewAnalyzer ws T) Hws) as (a & rs & Hrun).
  destruct (analyze_all_registry_ok _ _ _ _ (NewAnalyzer_ok ws T) Hrun)
    as (Ha & Hsz & _).
  cbn in Hsz.
  exists a, rs. split; [done |]. split.
  - intros dev w Hw. destruct (Ha _ _ Hw) as (Hr & Ht & Hle & _).
    rewrite Hsz in Hle. repeat split; lia.
  - intros data.
    assert (Hw : window_ok ws (window_of a (DeviceID data))).
    { rewrite <- Hsz. apply window_of_ok; [lia | done]. }
    eexists _, _, _. split; [apply analyze_Ok; right; lia |].
    split; [cbn; apply lookup_insert_eq |].
    cbn. split; [apply Hw |]. split; intros Hlen.
    + by rewrite (appendWindow_room ws).
    + by rewrite (appendWindow_full ws).
Qed.

Lemma C1_window_bounded_fifo_witness :
  0 <= 2 /\
  exists a rs,
    analyze_all (NewAnalyzer 2 2%float)
      [ {| DeviceID := "dev-1"; Timestamp := 1; CPU := 10%float; RPS := 5%float |};
        {| DeviceID := "dev-1"; Timestamp := 2; CPU := 20%float; RPS := 6%float |};
        {| DeviceID := "dev-1"; Timestamp := 3; CPU := 30%float; RPS := 7%float |} ]
    = Ok (a, rs).
Proof.
  split; [lia |].
  destruct (C1_window_bounded_fifo 2 2%float
     [ {| DeviceID := "dev-1"; Timestamp := 1; CPU := 10%float; RPS := 5%float |};
       {| DeviceID := "dev-1"; Timestamp := 2; CPU := 20%float; RPS := 6%float |};
       {| DeviceID := "dev-1"; Timestamp := 3; CPU := 30%float; RPS := 7%float |} ])
    as (a & rs & Hrun & _); [lia |].
  exists a, rs. exact Hrun.
Defined.

(** The oldest of three readings has left a window of two. *)
Example window_evicts_oldest :
  exists a rs w,
    analyze_all (NewAnalyzer 2 2%float)
      [ {| DeviceID := "dev-1"; Timestamp := 1; CPU := 10%float; RPS := 5%float |};
        {| DeviceID := "dev-1"; Timestamp := 2; CPU := 20%float; RPS := 6%float |};
        {| DeviceID := "dev-1"; Timestamp := 3; CPU := 30%float; RPS := 7%float |} ]
    = Ok (a, rs) /\
    windows a !! "dev-1"%string = Some w /\
    cpuValues w = [20%float; 30%float] /\
    rpsValues w = [6%float; 7%float] /\
    timestamps w = [2; 3].
Proof. eexists _, _, _. repeat split; vm_compute; reflexivity. Qed.

(** ** Rolling statistics *)

Lemma fold_squares values mean init :
  fold_left (fun variance v =>
               let diff := (v - mean)%float in (variance + diff * diff)%float)
            values init
  = fold_left (fun s x => (s + x)%float)
              (map (fun x => ((x - mean) * (x - mean))%float) values) init.
Proof.
  revert init. induction values as [|v values IH]; intros init; cbn; [done |].
  apply IH.
Qed.

(** C2. The mean of an empty sequence is exactly 0 and so is its standard
    deviation; for a non-empty sequence of length n the standard deviation
    is the population one, [sqrt(sum((x - mean)^2) / n)]: the divisor is n
    (on [1; 3] with mean 2 the result is 1, where dividing by n-1 would give
    the square root of 2). *)
Theorem C2_mean_stddev :
  calculateAverage [] = 0%float /\
  (forall mean, calculateStdDev [] mean = 0%float) /\
  (forall values mean, values <> [] ->
     calculateStdDev values mean
     = math_Sqrt (fsum (map (fun x => ((x - mean) * (x - mean))%float) values)
                  / float64_of_int (Z.of_nat (length values)))%float
     /\ calculateStdDev values mean = population_stddev values mean) /\
  calculateStdDev [1%float; 3%float] 2%float = 1%float /\
  (math_Sqrt (fsum [1; 1] / float64_of_int (2 - 1)) =? 1)%float = false.
Proof.
  split; [reflexivity |]. split; [reflexivity |]. split.
  - intros values mean Hne.
    assert (H : calculateStdDev values mean = population_stddev values mean).
    { unfold calculateStdDev, population_stddev, fsum, float64_of_len.
      destruct values as [|v values]; [done |].
      cbn [length Nat.eqb]. by rewrite fold_squares. }
    split; [| done]. by rewrite H.
  - split; vm_compute; reflexivity.
Qed.

(** ** Classification *)

(** The two tests of lines 524-542 taken together. *)
Lemma classify_cases T zc zr :
  classify T zc zr =
    match fgt (math_Abs zc) T, fgt (math_Abs zr) T with
    | true, true => (true, "MULTIPLE_ANOMALY"%string)
    | true, false => (true, if fgt zc 0%float then "CPU_SPIKE" else "CPU_DROP")%string
    | false, true => (true, if fgt zr 0%float then "RPS_SPIKE" else "RPS_DROP")%string
    | false, false => (false, EmptyString)
    end.
Proof.
  unfold classify.
  destruct (fgt (math_Abs zc) T), (fgt (math_Abs zr) T), (fgt zc 0%float);
    reflexivity.
Qed.

Lemma mkResult_IsAnomaly T data st :
  IsAnomaly (mkResult T data st) = fst (classify T (zScoreCPU st) (zScoreRPS st)).
Proof. unfold mkResult. by destruct (classify _ _ _). Qed.

Lemma mkResult_AnomalyType T data st :
  AnomalyType (mkResult T data st) = snd (classify T (zScoreCPU st) (zScoreRPS st)).
Proof. unfold mkResult. by destruct (classify _ _ _). Qed.

Lemma mkResult_AnomalyScore T data st :
  AnomalyScore (mkResult T data st)
  = math_Max (math_Abs (zScoreCPU st)) (math_Abs (zScoreRPS st)).
Proof. unfold mkResult. by destruct (classify _ _ _). Qed.

Lemma mkResult_StandardDev T data st :
  StandardDev (mkResult T data st) = math_Max (stdDevCPU st) (stdDevRPS st).
Proof. unfold mkResult. by destruct (classify _ _ _). Qed.

Lemma mkResult_RollingAvg T data st :
  RollingAvgCPU (mkResult T data st) = avgCPU st /\
  RollingAvgRPS (mkResult T data st) = avgRPS st.
Proof. unfold mkResult. by destruct (classify _ _ _). Qed.

(** The result of [analyze] is built from the statistics of the window as
    it stands after the append. *)
Lemma analyze_result a data a' r w' :
  analyze a data = Ok (a', r) ->
  windows a' !! DeviceID data = Some w' ->
  w' = appendWindow (window_of a (DeviceID data)) data /\
  r = mkResult (anomalyThreshold a) data (windowStats w' data).
Proof.
  intros H Hw'. apply analyze_inv in H as (_ & -> & ->).
  cbn in Hw'. rewrite lookup_insert_eq in Hw'. by injection Hw' as <-.
Qed.

Lemma warm_analyzer_windowSize : 0 <= windowSize warm_analyzer.
Proof. vm_compute. discriminate. Qed.

(** C3. When the CPU z-score and the request-rate z-score of a reading
    both exceed the threshold in magnitude, the result is flagged, its type
    is MULTIPLE_ANOMALY whatever the two directions, and its score is
    [math.Max] of the two magnitudes: one of the two, not below the other. *)
Theorem C3_multiple_anomaly a data a' r w' :
  analyze a data = Ok (a', r) ->
  windows a' !! DeviceID data = Some w' ->
  let st := windowStats w' data in
  fgt (math_Abs (zScoreCPU st)) (anomalyThreshold a) = true ->
  fgt (math_Abs (zScoreRPS st)) (anomalyThreshold a) = true ->
  IsAnomaly r = true /\
  AnomalyType r = "MULTIPLE_ANOMALY"%string /\
  AnomalyScore r = math_Max (math_Abs (zScoreCPU st)) (math_Abs (zScoreRPS st)) /\
  (AnomalyScore r = math_Abs (zScoreCPU st) \/
   AnomalyScore r = math_Abs (zScoreRPS st)) /\
  (math_Abs (zScoreCPU st) <=? AnomalyScore r)%float = true /\
  (math_Abs (zScoreRPS st) <=? AnomalyScore r)%float = true.
Proof.
  intros H Hw' st Hc Hr.
  destruct (analyze_result _ _ _ _ _ H Hw') as [_ ->]. fold st.
  rewrite mkResult_IsAnomaly, mkResult_AnomalyType, mkResult_AnomalyScore.
  rewrite classify_cases, Hc, Hr. cbn [fst snd].
  split; [done |]. split; [done |]. split; [done |].
  apply F64.math_Max_spec.
  - by apply (F64.ltb_not_nan (anomalyThreshold a)).
  - by apply (F64.ltb_not_nan (anomalyThreshold a)).
Qed.

Lemma C3_multiple_anomaly_witness :
  exists r,
    IsAnomaly r = true /\ AnomalyType r = "MULTIPLE_ANOMALY"%string /\
    AnomalyScore r = 3%float.
Proof.
  pose (data := {| DeviceID := "dev-1"; Timestamp := 9;
                   CPU := 100%float; RPS := 0%float |}).
  pose proof (analyze_Ok warm_analyzer data (or_intror warm_analyzer_windowSize))
    as Hrun.
  cbv zeta in Hrun.
  pose proof (C3_multiple_anomaly warm_analyzer data _ _ _ Hrun
                (lookup_insert_eq _ _ _)) as Hthm.
  cbv zeta in Hthm.
  destruct Hthm as (Hflag & Hty & Hscore & _).
  - vm_compute. reflexivity.
  - vm_compute. reflexivity.
  - eexists. split; [exact Hflag |]. split; [exact Hty |].
    rewrite Hscore. vm_compute. reflexivity.
Defined.

(** C10. In every result of [analyze] the flag and the type agree: the
    flag is set exactly when the type is not the empty string; an unflagged
    result carries the empty string, and a flagged one carries one of
    CPU_SPIKE, CPU_DROP, RPS_SPIKE, RPS_DROP, MULTIPLE_ANOMALY. *)
Theorem C10_flag_type_consistent a data a' r :
  analyze a data = Ok (a', r) ->
  (IsAnomaly r = true <-> AnomalyType r <> EmptyString) /\
  (IsAnomaly r = false -> AnomalyType r = EmptyString) /\
  (IsAnomaly r = true ->
   In (AnomalyType r)
      ["CPU_SPIKE"; "CPU_DROP"; "RPS_SPIKE"; "RPS_DROP"; "MULTIPLE_ANOMALY"]%string).
Proof.
  intros H. apply analyze_inv in H as (_ & _ & ->).
  rewrite mkResult_IsAnomaly, mkResult_AnomalyType, classify_cases.
  destruct (fgt (math_Abs _) _), (fgt (math_Abs _) _); cbn [fst snd];
    try destruct (fgt (zScoreCPU _) _); try destruct (fgt (zScoreRPS _) _);
    (split; [split |]; [| | split]);
    try (intros H; discriminate H); try (intros _; discriminate);
    try (intros _; reflexivity); try (intros Hc; by elim Hc);
    intros _; cbn; auto 10.
Qed.

Lemma C10_flag_type_consistent_witness :
  exists r,
    (IsAnomaly r = true <-> AnomalyType r <> EmptyString) /\
    IsAnomaly r = true /\ AnomalyType r = "RPS_DROP"%string.
Proof.
  pose (data := {| DeviceID := "dev-1"; Timestamp := 9;
                   CPU := 10%float; RPS := 1%float |}).
  pose proof (analyze_Ok warm_analyzer data (or_intror warm_analyzer_windowSize))
    as Hrun.
  cbv zeta in Hrun.
  destruct (C10_flag_type_consistent warm_analyzer data _ _ Hrun) as (Hiff & _).
  eexists. split; [exact Hiff |]. split; vm_compute; reflexivity.
Defined.

(** ** z-scores *)

(** The quotient of a z-score is only ever taken at a positive standard
    deviation: an operator that agrees with the float64 division on
    positive divisors, whatever it does elsewhere, yields the same score. *)
Lemma zScoreWith_guard fdiv x avg stdDev :
  (forall u v, fgt v 0%float = true -> fdiv u v = (u / v)%float) ->
  zScoreWith fdiv x avg stdDev = zScore x avg stdDev.
Proof.
  intros Hdiv. unfold zScore, zScoreWith.
  destruct (fgt stdDev 0%float) eqn:Hsd; [by apply Hdiv | done].
Qed.

(** C4. For every reading [analyze] processes, the CPU z-score is
    [(reading.cpu - avgCPU) / stdCPU] when [stdCPU > 0] and 0 otherwise,
    likewise for the request rate, over the mean and deviation of the window
    as it stands after the append; the quotient is never taken at a divisor
    that is not positive, and the computation returns. *)
Theorem C4_zscore_guarded a data :
  is_Some (windows a !! DeviceID data) \/ 0 <= windowSize a ->
  exists a' r w',
    analyze a data = Ok (a', r) /\
    windows a' !! DeviceID data = Some w' /\
    let st := windowStats w' data in
    avgCPU st = calculateAverage (cpuValues w') /\
    avgRPS st = calculateAverage (rpsValues w') /\
    stdDevCPU st = calculateStdDev (cpuValues w') (avgCPU st) /\
    stdDevRPS st = calculateStdDev (rpsValues w') (avgRPS st) /\
    zScoreCPU st =
      (if fgt (stdDevCPU st) 0%float
       then ((CPU data - avgCPU st) / stdDevCPU st)%float else 0%float) /\
    zScoreRPS st =
      (if fgt (stdDevRPS st) 0%float
       then ((RPS data - avgRPS st) / stdDevRPS st)%float else 0%float) /\
    AnomalyScore r = math_Max (math_Abs (zScoreCPU st)) (math_Abs (zScoreRPS st)) /\
    forall fdiv,
      (forall u v, fgt v 0%float = true -> fdiv u v = (u / v)%float) ->
      zScoreWith fdiv (CPU data) (avgCPU st) (stdDevCPU st) = zScoreCPU st /\
      zScoreWith fdiv (RPS data) (avgRPS st) (stdDevRPS st) = zScoreRPS st.
Proof.
  intros Hok. eexists _, _, _.
  split; [by apply analyze_Ok |].
  split; [cbn; apply lookup_insert_eq |].
  cbv zeta. rewrite mkResult_AnomalyScore.
  repeat (split; [reflexivity |]).
  intros fdiv Hdiv. split; by apply zScoreWith_guard.
Qed.

Lemma C4_zscore_guarded_witness :
  exists a' r,
    analyze warm_analyzer
      {| DeviceID := "dev-1"; Timestamp := 9; CPU := 100%float; RPS := 10%float |}
    = Ok (a', r) /\ AnomalyScore r = 3%float.
Proof.
  destruct (C4_zscore_guarded warm_analyzer
              {| DeviceID := "dev-1"; Timestamp := 9; CPU := 100%float; RPS := 10%float |}
              (or_intror warm_analyzer_windowSize))
    as (a' & r & w' & Hrun & Hw' & Hst).
  exists a', r. split; [exact Hrun |].
  destruct (analyze_result _ _ _ _ _ Hrun Hw') as [-> ->].
  vm_compute. reflexivity.
Defined.

(** ** Cold start: windows of fewer than two samples *)

(** The deviation of a single sample around its own mean is [+0] when the
    sample is a number, and NaN when it is an infinity or NaN. *)
Lemma stddev_singleton_SF x :
  Prim2SF (calculateStdDev [x] (calculateAverage [x])) =
    match Prim2SF x with
    | S754_zero _ | S754_finite _ _ _ => S754_zero false
    | _ => S754_nan
    end.
Proof.
  unfold calculateStdDev, calculateAverage, math_Sqrt.
  cbn [length Nat.eqb fold_left].
  change (float64_of_len [x]) with 1%float.
  rewrite sqrt_spec, div_spec, add_spec, mul_spec, sub_spec, div_spec, add_spec.
  rewrite F64.Prim2SF_one, F64.Prim2SF_zero.
  pose proof (Prim2SF_valid x) as Hvalid.
  destruct (Prim2SF x) as [s|s| |s m e].
  - destruct s; reflexivity.
  - destruct s; reflexivity.
  - reflexivity.
  - change (SF64add (S754_zero false) (S754_finite s m e)) with (S754_finite s m e).
    rewrite F64.SFdiv_one by done.
    rewrite F64.SFsub_diag. reflexivity.
Qed.

Lemma stddev_singleton_finite x :
  is_finite x = true -> calculateStdDev [x] (calculateAverage [x]) = 0%float.
Proof.
  intros Hx. apply Prim2SF_inj. rewrite stddev_singleton_SF, F64.Prim2SF_zero.
  by destruct (F64.is_finite_SF x Hx) as [[s ->] | (s & m & e & ->)].
Qed.

Lemma stddev_singleton_not_positive x :
  fgt (calculateStdDev [x] (calculateAverage [x])) 0%float = false.
Proof.
  unfold fgt. rewrite FloatAxioms.ltb_spec, stddev_singleton_SF, F64.Prim2SF_zero.
  by destruct (Prim2SF x).
Qed.

Lemma zScore_singleton x :
  zScore x (calculateAverage [x]) (calculateStdDev [x] (calculateAverage [x])) = 0%float.
Proof. unfold zScore, zScoreWith. by rewrite stddev_singleton_not_positive. Qed.

(** A window that is short after the append is empty (capacity 0) or holds
    just the reading. *)
Lemma appendWindow_short ws w data :
  window_ok ws w ->
  (length (cpuValues (appendWindow w data)) < 2)%nat ->
  (cpuValues (appendWindow w data) = [] /\ rpsValues (appendWindow w data) = []) \/
  (cpuValues (appendWindow w data) = [CPU data] /\
   rpsValues (appendWindow w data) = [RPS data]).
Proof.
  intros (Hr & Ht & Hle & Hmax). unfold appendWindow.
  destruct (cpuValues w) as [|c1 [|c2 cs]], (rpsValues w) as [|r1 [|r2 rs]];
    try discriminate Hr;
    destruct (_ >? _); cbn; intros Hlen; auto; try lia.
  rewrite length_app in Hlen. cbn in Hlen. lia.
Qed.

(** C5. For every reading processed while the window of its device,
    after the append, holds fewer than two samples: both z-scores are 0 and
    so is the score, whatever the two values; the flag is not set (for a
    threshold that is not negative); and the standard deviation of each
    signal is 0 (for a value that is a number: an infinite or NaN value
    makes it NaN, still with a z-score of 0 and no flag). *)
Theorem C5_cold_start ws T readings a rs data a' r w' :
  analyze_all (NewAnalyzer ws T) readings = Ok (a, rs) ->
  analyze a data = Ok (a', r) ->
  windows a' !! DeviceID data = Some w' ->
  (length (cpuValues w') < 2)%nat ->
  let st := windowStats w' data in
  zScoreCPU st = 0%float /\ zScoreRPS st = 0%float /\
  AnomalyScore r = 0%float /\
  (fgt 0%float T = false -> IsAnomaly r = false /\ AnomalyType r = EmptyString) /\
  (is_finite (CPU data) = true -> stdDevCPU st = 0%float) /\
  (is_finite (RPS data) = true -> stdDevRPS st = 0%float) /\
  (is_finite (CPU data) = true -> is_finite (RPS data) = true ->
   StandardDev r = 0%float).
Proof.
  intros Hreach Hrun Hw' Hlen st.
  destruct (analyze_all_registry_ok _ _ _ _ (NewAnalyzer_ok ws T) Hreach)
    as (Ha & Hws & HT).
  cbn in Hws, HT.
  destruct (analyze_result _ _ _ _ _ Hrun Hw') as [Ew' ->]. fold st.
  assert (Hwin : window_ok (windowSize a) (window_of a (DeviceID data))).
  { apply window_of_ok; [| done].
    apply analyze_inv in Hrun as ([[w Hw] | Hws'] & _); [| done].
    destruct (Ha _ _ Hw) as (_ & _ & Hle & _). lia. }
  rewrite Ew' in Hlen.
  destruct (appendWindow_short _ _ data Hwin Hlen) as [[Hc Hr] | [Hc Hr]];
    rewrite <- Ew' in Hc, Hr.
  - assert (Hzc : zScoreCPU st = 0%float) by (subst st; unfold windowStats; cbn; by rewrite Hc).
    assert (Hzr : zScoreRPS st = 0%float) by (subst st; unfold windowStats; cbn; by rewrite Hr).
    assert (Hsc : stdDevCPU st = 0%float) by (subst st; unfold windowStats; cbn; by rewrite Hc).
    assert (Hsr : stdDevRPS st = 0%float) by (subst st; unfold windowStats; cbn; by rewrite Hr).
    rewrite mkResult_AnomalyScore, mkResult_IsAnomaly, mkResult_AnomalyType,
      mkResult_StandardDev, classify_cases, Hzc, Hzr, Hsc, Hsr, HT.
    change (math_Abs 0) with 0%float.
    split; [done |]. split; [done |]. split; [reflexivity |].
    split; [by intros -> |]. done.
  - assert (Hzc : zScoreCPU st = 0%float)
      by (subst st; unfold windowStats; cbn; rewrite Hc; apply zScore_singleton).
    assert (Hzr : zScoreRPS st = 0%float)
      by (subst st; unfold windowStats; cbn; rewrite Hr; apply zScore_singleton).
    assert (Hsc : is_finite (CPU data) = true -> stdDevCPU st = 0%float)
      by (intros Hf; subst st; unfold windowStats; cbn; rewrite Hc;
          by apply stddev_singleton_finite).
    assert (Hsr : is_finite (RPS data) = true -> stdDevRPS st = 0%float)
      by (intros Hf; subst st; unfold windowStats; cbn; rewrite Hr;
          by apply stddev_singleton_finite).
    rewrite mkResult_AnomalyScore, mkResult_IsAnomaly, mkResult_AnomalyType,
      mkResult_StandardDev, classify_cases, Hzc, Hzr, HT.
    change (math_Abs 0) with 0%float.
    split; [done |]. split; [done |]. split; [reflexivity |].
    split; [by intros -> |]. split; [done |]. split; [done |].
    intros Hfc Hfr. by rewrite Hsc, Hsr.
Qed.

Lemma C5_cold_start_witness :
  exists r,
    IsAnomaly r = false /\ AnomalyScore r = 0%float /\ StandardDev r = 0%float.
Proof.
  pose (data := {| DeviceID := "dev-1"; Timestamp := 1;
                   CPU := 1000000%float; RPS := 123%float |}).
  assert (Hws : 0 <= windowSize (NewAnalyzer 50 2%float)) by (cbn; lia).
  pose proof (analyze_Ok (NewAnalyzer 50 2%float) data (or_intror Hws)) as Hrun.
  cbv zeta in Hrun.
  pose proof (C5_cold_start 50 2%float [] _ _ data _ _ _ eq_refl Hrun
                (lookup_insert_eq _ _ _)) as Hthm.
  cbv zeta in Hthm.
  destruct Hthm as (_ & _ & Hscore & Hflag & _ & _ & Hsd).
  - vm_compute. lia.
  - eexists. split; [apply Hflag; reflexivity |].
    split; [exact Hscore |]. apply Hsd; reflexivity.
Defined.

(** An infinite reading in a fresh window: the reported deviation is NaN,
    the score is 0 and nothing is flagged. *)
Example cold_start_infinite_reading :
  exists a' r,
    analyze (NewAnalyzer 50 2%float)
      {| DeviceID := "dev-1"; Timestamp := 1; CPU := infinity; RPS := 0%float |}
    = Ok (a', r) /\
    is_nan (StandardDev r) = true /\ AnomalyScore r = 0%float /\ IsAnomaly r = false.
Proof. eexists _, _. split; [vm_compute; reflexivity |]. by vm_compute. Qed.

(** A negative threshold flags even a first reading, whose z-scores are 0. *)
Example cold_start_negative_threshold :
  exists a' r,
    analyze (NewAnalyzer 50 (-1)%float)
      {| DeviceID := "dev-1"; Timestamp := 1; CPU := 5%float; RPS := 0%float |}
    = Ok (a', r) /\
    AnomalyScore r = 0%float /\ IsAnomaly r = true /\
    AnomalyType r = "MULTIPLE_ANOMALY"%string.
Proof. eexists _, _. split; [vm_compute; reflexivity |]. by vm_compute. Qed.

(** ** The worked example: a spike diluted by its own window *)

Lemma analyze_known a data w :
  windows a !! DeviceID data = Some w ->
  analyze a data =
    Ok (set_windows a (<[DeviceID data := appendWindow w data]> (windows a)),
        mkResult (anomalyThreshold a) data (windowStats (appendWindow w data) data)).
Proof.
  intros Hw. rewrite analyze_Ok by (left; eauto).
  unfold window_of. by rewrite Hw.
Qed.

(** Four readings of one device into a fresh analyzer of window size 3 and
    threshold 2: the final window and the fourth result. *)
Lemma four_readings dev t1 t2 t3 t4 c1 c2 c3 c4 r1 r2 r3 r4 :
  let w := {| cpuValues := [c2; c3; c4]; rpsValues := [r2; r3; r4];
              timestamps := [t2; t3; t4]; maxSize := 3 |} in
  exists a res1 res2 res3,
    analyze_all (NewAnalyzer 3 2%float)
      [reading dev t1 c1 r1; reading dev t2 c2 r2;
       reading dev t3 c3 r3; reading dev t4 c4 r4]
    = Ok (a, [res1; res2; res3;
              mkResult 2%float (reading dev t4 c4 r4)
                       (windowStats w (reading dev t4 c4 r4))]) /\
    windows a !! dev = Some w.
Proof.
  intros w. unfold analyze_all.
  rewrite analyze_Ok by (right; cbn; lia). cbn.
  rewrite (analyze_known _ (reading dev t2 c2 r2) _ (lookup_insert_eq _ _ _)). cbn.
  rewrite (analyze_known _ (reading dev t3 c3 r3) _ (lookup_insert_eq _ _ _)). cbn.
  rewrite (analyze_known _ (reading dev t4 c4 r4) _ (lookup_insert_eq _ _ _)). cbn.
  eexists _, _, _, _. split; [reflexivity |].
  cbn. apply lookup_insert_eq.
Qed.

(** C6. Window size 3, threshold 2.0, CPU readings 10, 10, 10, 100 of one
    device, whatever the request rates and timestamps: the fourth reading is
    scored against the retained values [10; 10; 100] (itself included), with
    rolling mean 40, population deviation
    sqrt(((10-40)^2 + (10-40)^2 + (100-40)^2) / 3) = sqrt(1800) (between
    42.42 and 42.43) and CPU z-score (100-40)/sqrt(1800) (between 1.41 and
    1.42), below the
    threshold: the CPU signal raises no flag, and with the request rate held
    constant at 0 the result's anomaly flag is false. *)
Theorem C6_spike_diluted (dev : string) (t1 t2 t3 t4 : Time) :
  (forall r1 r2 r3 r4 : float64,
   exists a res1 res2 res3 res w,
     analyze_all (NewAnalyzer 3 2%float)
       [reading dev t1 10%float r1; reading dev t2 10%float r2;
        reading dev t3 10%float r3; reading dev t4 100%float r4]
     = Ok (a, [res1; res2; res3; res]) /\
     windows a !! dev = Some w /\
     cpuValues w = [10%float; 10%float; 100%float] /\
     let st := windowStats w (reading dev t4 100%float r4) in
     RollingAvgCPU res = 40%float /\
     avgCPU st = 40%float /\
     stdDevCPU st =
       math_Sqrt (((10 - 40) * (10 - 40) + (10 - 40) * (10 - 40)
                   + (100 - 40) * (100 - 40)) / 3)%float /\
     stdDevCPU st = math_Sqrt 1800%float /\
     (42.42 <? stdDevCPU st)%float = true /\
     (stdDevCPU st <? 42.43)%float = true /\
     zScoreCPU st = ((100 - 40) / stdDevCPU st)%float /\
     (1.41 <? zScoreCPU st)%float = true /\
     (zScoreCPU st <? 1.42)%float = true /\
     fgt (math_Abs (zScoreCPU st)) 2%float = false /\
     IsAnomaly res = fgt (math_Abs (zScoreRPS st)) 2%float) /\
  (exists a res1 res2 res3 res,
     analyze_all (NewAnalyzer 3 2%float)
       [reading dev t1 10%float 0%float; reading dev t2 10%float 0%float;
        reading dev t3 10%float 0%float; reading dev t4 100%float 0%float]
     = Ok (a, [res1; res2; res3; res]) /\
     IsAnomaly res = false /\ AnomalyType res = EmptyString /\
     RollingAvgCPU res = 40%float /\
     AnomalyScore res = (60 / math_Sqrt 1800)%float /\
     StandardDev res = math_Sqrt 1800%float).
Proof.
  split.
  - intros r1 r2 r3 r4.
    destruct (four_readings dev t1 t2 t3 t4 10%float 10%float 10%float 100%float
                r1 r2 r3 r4) as (a & res1 & res2 & res3 & Hrun & Hw).
    cbv zeta in Hrun, Hw.
    eexists a, res1, res2, res3, _, _.
    split; [exact Hrun |]. split; [exact Hw |]. split; [reflexivity |].
    cbv zeta.
    rewrite mkResult_IsAnomaly, classify_cases.
    destruct (mkResult_RollingAvg 2%float (reading dev t4 100%float r4)
                (windowStats
                   {| cpuValues := [10%float; 10%float; 100%float];
                      rpsValues := [r2; r3; r4]; timestamps := [t2; t3; t4];
                      maxSize := 3 |} (reading dev t4 100%float r4))) as [-> _].
    assert (Hz : zScoreCPU
                   (windowStats
                      {| cpuValues := [10%float; 10%float; 100%float];
                         rpsValues := [r2; r3; r4]; timestamps := [t2; t3; t4];
                         maxSize := 3 |} (reading dev t4 100%float r4))
                 = (60 / math_Sqrt 1800)%float) by (vm_compute; reflexivity).
    rewrite Hz.
    replace (fgt (math_Abs (60 / math_Sqrt 1800)) 2%float) with false
      by (vm_compute; reflexivity).
    repeat (split; [vm_compute; reflexivity |]).
    by destruct (fgt _ _).
  - destruct (four_readings dev t1 t2 t3 t4 10%float 10%float 10%float 100%float
                0%float 0%float 0%float 0%float)
      as (a & res1 & res2 & res3 & Hrun & Hw).
    cbv zeta in Hrun.
    eexists a, res1, res2, res3, _.
    split; [exact Hrun |].
    repeat split; vm_compute; reflexivity.
Qed.

(** ** The ingestion queue *)

Lemma set_metricsChan_id a : set_metricsChan a (metricsChan a) = a.
Proof. by destruct a. Qed.

Lemma select_send_default_open {A} (ch : Chan A) v :
  closed ch = false ->
  select_send_default ch v =
    Ok (if (length (buf ch) <? cap ch)%nat
        then {| buf := buf ch ++ [v]; cap := cap ch; closed := false |}
        else ch).
Proof.
  intros Hopen. unfold select_send_default, chan_send. rewrite Hopen.
  by destruct (_ <? _)%nat.
Qed.

Lemma select_send_default_closed {A} (ch : Chan A) v :
  closed ch = true ->
  select_send_default ch v = Panic "send on closed channel".
Proof. intros Hc. unfold select_send_default, chan_send. by rewrite Hc. Qed.

Lemma select_send_default_not_Blocks {A} (ch : Chan A) v :
  select_send_default ch v <> Blocks.
Proof.
  unfold select_send_default, chan_send.
  destruct (closed ch); [done |]. by destruct (_ <? _)%nat.
Qed.

(** C7. On an engine that has not been stopped, [AddMetric] never
    suspends the caller and never panics (it has no error result); at
    capacity the reading is dropped and the engine, its queue included, is
    unchanged; below capacity the reading is enqueued at the tail. *)
Theorem C7_AddMetric_drop_on_full a data :
  closed (metricsChan a) = false ->
  AddMetric a data <> Blocks /\
  is_panic (AddMetric a data) = false /\
  (length (buf (metricsChan a)) = cap (metricsChan a) -> AddMetric a data = Ok a) /\
  ((length (buf (metricsChan a)) < cap (metricsChan a))%nat ->
   AddMetric a data =
     Ok (set_metricsChan a
           {| buf := buf (metricsChan a) ++ [data];
              cap := cap (metricsChan a); closed := false |})).
Proof.
  intros Hopen. unfold AddMetric.
  rewrite select_send_default_open by done.
  unfold mbind, Outcome_bind. cbn [bind].
  split; [done |]. split; [done |]. split; intros Hlen.
  - destruct (Nat.ltb_spec (length (buf (metricsChan a))) (cap (metricsChan a)));
      [lia |].
    by rewrite set_metricsChan_id.
  - by destruct (Nat.ltb_spec (length (buf (metricsChan a))) (cap (metricsChan a)));
      [| lia].
Qed.

Lemma C7_AddMetric_drop_on_full_witness :
  length (buf (metricsChan saturated_analyzer)) = 1000%nat /\
  AddMetric saturated_analyzer quiet_reading = Ok saturated_analyzer.
Proof.
  split; [vm_compute; reflexivity |].
  apply (C7_AddMetric_drop_on_full saturated_analyzer quiet_reading).
  - vm_compute. reflexivity.
  - vm_compute. reflexivity.
Defined.

(** ** Lifecycle: what can and what cannot panic *)

Ltac destruct_if :=
  match goal with |- context [if ?b then _ else _] => destruct b end.

Lemma Start_running ws T n : 0 <= ws -> running (Start (NewAnalyzer ws T) n).
Proof. intros Hws. by repeat split. Qed.

Lemma AddMetric_running a data :
  running a -> exists a', AddMetric a data = Ok a' /\ running a'.
Proof.
  intros (Hs & Hm & Hr & Hws). unfold AddMetric.
  rewrite select_send_default_open by done.
  eexists. split; [reflexivity |].
  repeat split; cbn; try done. by destruct_if.
Qed.

Lemma processMetrics_step_running a :
  running a ->
  processMetrics_step a = Blocks \/
  exists a', processMetrics_step a = Ok a' /\ running a'.
Proof.
  intros (Hs & Hm & Hr & Hws). unfold processMetrics_step.
  destruct (wg a) as [|n]; [by left |].
  rewrite Hs. unfold chan_recv. rewrite Hm.
  destruct (buf (metricsChan a)) as [|d rest] eqn:Hbuf; [by left |].
  right. unfold mbind, Outcome_bind. cbn [bind].
  rewrite analyze_Ok by (right; cbn; lia).
  cbn [bind]. rewrite select_send_default_open by (cbn; done).
  cbn [bind]. eexists. split; [reflexivity |].
  repeat split; cbn; try done. by destruct_if.
Qed.

Lemma recvResult_running a :
  running a ->
  recvResult a = Blocks \/
  exists r a', recvResult a = Ok (r, a') /\ running a'.
Proof.
  intros (Hs & Hm & Hr & Hws). unfold recvResult, chan_recv. rewrite Hr.
  destruct (buf (resultsChan a)) as [|r rest]; [by left |].
  right. eexists _, _. split; [reflexivity |]. by repeat split.
Qed.

Lemma Stop_running a : running a -> exists a', Stop a = Ok a' /\ stopped a'.
Proof.
  intros (Hs & Hm & Hr & Hws). unfold Stop, chan_close.
  rewrite Hs. unfold mbind, Outcome_bind. cbn. rewrite Hm, Hr.
  eexists. split; [reflexivity |]. by repeat split.
Qed.

Lemma exec_op_running a op :
  running a ->
  (is_stop op = false /\ exec_op a op = Blocks) \/
  exists a', exec_op a op = Ok a' /\
             if is_stop op then stopped a' else running a'.
Proof.
  intros Ha. destruct op as [data| | | |]; cbn [exec_op is_stop].
  - right. destruct (AddMetric_running a data Ha) as (a' & -> & Ha'). eauto.
  - destruct (processMetrics_step_running a Ha) as [-> | (a' & -> & Ha')]; eauto.
  - destruct (recvResult_running a Ha) as [-> | (r & a' & -> & Ha')]; eauto.
  - right. eauto.
  - right. destruct (Stop_running a Ha) as (a' & -> & Ha'). eauto.
Qed.

Lemma exec_op_stopped a op :
  stopped a ->
  if quiet_op op
  then exec_op a op = Blocks \/ exists a', exec_op a op = Ok a' /\ stopped a'
  else is_panic (exec_op a op) = true.
Proof.
  intros (Hs & Hm & Hr & Hwg). destruct op as [data| | | |]; cbn [exec_op quiet_op].
  - unfold AddMetric. by rewrite select_send_default_closed.
  - left. unfold processMetrics_step. by rewrite Hwg.
  - right. unfold recvResult, chan_recv. rewrite Hr.
    destruct (buf (resultsChan a)) as [|r rest]; eexists; (split; [reflexivity |]);
      by repeat split.
  - right. by exists a.
  - unfold Stop, chan_close. by rewrite Hs.
Qed.

Lemma run_stopped ops :
  forall a, stopped a ->
    if forallb quiet_op ops
    then exists a', run a ops = Ok a' /\ stopped a'
    else is_panic (run a ops) = true.
Proof.
  induction ops as [|op ops IH]; intros a Ha; cbn [forallb run]; [eauto |].
  pose proof (exec_op_stopped a op Ha) as Hop.
  destruct (quiet_op op); cbn [andb].
  - destruct Hop as [-> | (a' & -> & Ha')]; by apply IH.
  - by destruct (exec_op a op).
Qed.

Lemma run_running ops :
  forall a, running a ->
    if lifecycle_ok ops
    then exists a', run a ops = Ok a' /\ (running a' \/ stopped a')
    else is_panic (run a ops) = true.
Proof.
  induction ops as [|op ops IH]; intros a Ha; cbn [run]; [cbn; eauto |].
  destruct (exec_op_running a op Ha) as [[Hne ->] | (a' & -> & Ha')].
  - specialize (IH a Ha). by destruct op.
  - destruct op as [data| | | |]; cbn [lifecycle_ok is_stop] in *;
      try (by apply IH).
    pose proof (run_stopped ops a' Ha') as Hrest.
    destruct (forallb quiet_op ops); [| done].
    destruct Hrest as (a'' & -> & Ha''). eauto.
Qed.

(** C9 (as amended). On an engine built with a window size that is not
    negative and started, a sequence of operations (submissions, worker
    iterations, result receives, stats reads, Stop) aborts the process
    exactly when it submits a reading, or calls Stop again, after a Stop:
    within the lifecycle no operation panics, and queue saturation in
    particular is a silent drop. *)
Theorem C9_no_abort_within_lifecycle ws T n ops :
  0 <= ws ->
  (lifecycle_ok ops = true ->
   exists a, run (Start (NewAnalyzer ws T) n) ops = Ok a) /\
  (lifecycle_ok ops = false ->
   is_panic (run (Start (NewAnalyzer ws T) n) ops) = true).
Proof.
  intros Hws.
  pose proof (run_running ops _ (Start_running ws T n Hws)) as Hrun.
  destruct (lifecycle_ok ops).
  - split; [| done]. intros _. destruct Hrun as (a & -> & _). eauto.
  - split; [done |]. by intros _.
Qed.

Lemma C9_no_abort_within_lifecycle_witness :
  0 <= 50 /\
  exists a,
    run (Start (NewAnalyzer 50 2%float) 4)
        [OpAddMetric quiet_reading; OpWorker; OpRecvResult; OpGetStats;
         OpStop; OpRecvResult; OpGetStats]
    = Ok a.
Proof.
  split; [lia |].
  apply (C9_no_abort_within_lifecycle 50 2%float 4); [lia | reflexivity].
Defined.

(** C9 as stated fails: a reading submitted after [Stop] has completed is a
    send on the closed ingestion channel, which panics. *)
Lemma C9_submit_after_stop_panics :
  run (Start (NewAnalyzer 50 2%float) 4)
      [OpAddMetric quiet_reading; OpWorker; OpStop; OpAddMetric quiet_reading]
  = Panic "send on closed channel".
Proof. vm_compute. reflexivity. Qed.

(** So does a second [Stop]. *)
Example stop_twice_panics :
  run (Start (NewAnalyzer 50 2%float) 4) [OpStop; OpStop]
  = Panic "close of closed channel".
Proof. vm_compute. reflexivity. Qed.

(** A negative window size is the other panic: the first reading a worker
    analyzes cannot allocate its window. *)
Example negative_window_size_panics :
  run (Start (NewAnalyzer (-1) 2%float) 4) [OpAddMetric quiet_reading; OpWorker]
  = Panic "makeslice: cap out of range".
Proof. vm_compute. reflexivity. Qed.

(** ** The registry under concurrent workers *)

Module Race.
Import Conc.

Section OneDevice.

(** The device all workers ask for, and the size of the heap at the start. *)
Variable dev : string.
Variable h0 : nat.

Local Abbreviation thread_inv := (Conc.thread_inv dev h0).
Local Abbreviation inv := (Conc.inv dev h0).
Local Abbreviation inv_threads := (Conc.inv_threads dev h0).
Local Abbreviation inv_free := (Conc.inv_free dev h0).
Local Abbreviation inv_held := (Conc.inv_held dev h0).
Local Abbreviation inv_reg := (Conc.inv_reg dev h0).
Local Abbreviation inv_fresh := (Conc.inv_fresh dev h0).
Local Abbreviation inv_created := (Conc.inv_created dev h0).

Lemma lookup_update σ tid t next m r h j tj :
  threads σ !! tid = Some t ->
  threads (update σ tid t next m r h) !! j = Some tj ->
  (j = tid /\ tj = {| t_dev := t_dev t; t_pc := next |}) \/
  (j <> tid /\ threads σ !! j = Some tj).
Proof.
  intros Ht. cbn. rewrite list_lookup_insert_Some.
  intros [(-> & <- & _) | (Hne & Hj)]; [by left | by right].
Qed.

Lemma lookup_update_eq σ tid t next m r h :
  threads σ !! tid = Some t ->
  threads (update σ tid t next m r h) !! tid
  = Some {| t_dev := t_dev t; t_pc := next |}.
Proof. intros Ht. cbn. apply list_lookup_insert_eq. by eapply lookup_lt_Some. Qed.

Lemma spawn_inv reg h ws n :
  0 <= ws -> reg !! dev = None -> length h = h0 -> inv (spawn reg h ws dev n).
Proof.
  intros Hws Hreg Hh.
  assert (Hth : forall i t, repeat {| t_dev := dev; t_pc := AtLock |} n !! i = Some t ->
                            t = {| t_dev := dev; t_pc := AtLock |}).
  { intros i t Hi. apply list_elem_of_lookup_2 in Hi.
    apply list_elem_of_In, repeat_spec in Hi. done. }
  constructor; unfold spawn; cbn [mu registry heap wsize threads].
  - intros i t Hi. by rewrite (Hth _ _ Hi).
  - intros i j ti tj Hi Hj. by rewrite (Hth _ _ Hi).
  - intros _ i t Hi. by rewrite (Hth _ _ Hi).
  - done.
  - by left.
  - done.
  - intros Hsome. by rewrite Hreg in Hsome.
  - done.
Qed.

(** A thread other than the mutex holder is at [Lock] or has returned. *)
Lemma non_holder_inv σ σ' t :
  holder t = false -> thread_inv σ t ->
  registry σ' !! dev = registry σ !! dev ->
  length (heap σ') = length (heap σ) ->
  thread_inv σ' t.
Proof.
  intros Hh [Hd Hpc] Hr Hl. split; [done |].
  destruct t as [d [| |?|?|?|?]]; try done.
  cbn in *. by rewrite Hr, Hl.
Qed.

Lemma step_inv σ tid σ' : inv σ -> step σ tid = Ok σ' -> inv σ'.
Proof.
  intros [Hth Hex Hfree Hheld Hreg Hfresh Hcre Hws]. unfold step.
  destruct (threads σ !! tid) as [t|] eqn:Ht; [| done].
  pose proof (Hth _ _ Ht) as [Hd Hpc].
  assert (Hothers : forall j tj, j <> tid -> threads σ !! j = Some tj ->
                                 holder t = true -> holder tj = false).
  { intros j tj Hne Hj Hh. destruct (holder tj) eqn:Htj; [| done].
    destruct Hne. by eapply Hex. }
  assert (Hexcl' : forall next m r h,
             (holder t = true \/ mu σ = false) ->
             forall i j ti tj,
               threads (update σ tid t next m r h) !! i = Some ti ->
               threads (update σ tid t next m r h) !! j = Some tj ->
               holder ti = true -> holder tj = true -> i = j).
  { intros next m r h Hcase i j ti tj Hi Hj Hhi Hhj.
    destruct (lookup_update _ _ _ _ _ _ _ _ _ Ht Hi) as [[-> ->] | [Hni Hi']];
      destruct (lookup_update _ _ _ _ _ _ _ _ _ Ht Hj) as [[-> ->] | [Hnj Hj']];
      try done.
    - destruct Hcase as [Hc | Hc].
      + by rewrite (Hothers _ _ Hnj Hj' Hc) in Hhj.
      + by rewrite (Hfree Hc _ _ Hj') in Hhj.
    - destruct Hcase as [Hc | Hc].
      + by rewrite (Hothers _ _ Hni Hi' Hc) in Hhi.
      + by rewrite (Hfree Hc _ _ Hi') in Hhi.
    - by eapply Hex. }
  destruct t as [d p]. cbn in Hd, Hpc. subst d.
  destruct p as [| |[w|]|w|w|w]; cbn [t_pc t_dev] in *.
  - (* Lock *)
    destruct (mu σ) eqn:Hmu; [done |]. intros [= <-].
    constructor; cbn [mu registry heap wsize update].
    + intros j tj Hj.
      destruct (lookup_update _ _ _ _ _ _ _ _ _ Ht Hj) as [[-> ->] | [Hne Hj']];
        [done |].
      eapply non_holder_inv; [by eapply Hfree | by eapply Hth | done | done].
    + apply Hexcl'. by right.
    + done.
    + intros _. exists tid. eexists. split; [by apply lookup_update_eq | done].
    + done.
    + intros Hr Hall. apply Hfresh; [done |]. intros j tj Hj.
      pose proof (Hfree eq_refl _ _ Hj). by destruct tj as [dj [| |?|?|?|?]].
    + done.
    + done.
  - (* lookup *)
    intros [= <-].
    constructor; cbn [mu registry heap wsize update].
    + intros j tj Hj.
      destruct (lookup_update _ _ _ _ _ _ _ _ _ Ht Hj) as [[-> ->] | [Hne Hj']];
        [done |].
      eapply non_holder_inv; [by eapply Hothers | by eapply Hth | done | done].
    + apply Hexcl'. by left.
    + intros Hm. congruence.
    + intros _. exists tid. eexists. split; [by apply lookup_update_eq | done].
    + done.
    + intros Hr Hall. apply Hfresh; [done |]. intros j tj Hj.
      destruct (decide (j = tid)) as [-> | Hne]; [by simplify_eq |].
      pose proof (Hothers _ _ Hne Hj eq_refl). by destruct tj as [dj [| |?|?|?|?]].
    + done.
    + done.
  - (* the device is registered *)
    destruct Hpc as [Hmu Hw]. symmetry in Hw.
    assert (w = h0) as -> by (destruct Hreg as [Hr | Hr]; congruence).
    intros [= <-].
    constructor; cbn [mu registry heap wsize update].
    + intros j tj Hj.
      destruct (lookup_update _ _ _ _ _ _ _ _ _ Ht Hj) as [[-> ->] | [Hne Hj']].
      * split; [done |]. cbn. auto.
      * eapply non_holder_inv; [by eapply Hothers | by eapply Hth | done | done].
    + apply Hexcl'. by left.
    + intros Hm. congruence.
    + intros _. exists tid. eexists. split; [by apply lookup_update_eq | done].
    + done.
    + intros Hr. congruence.
    + done.
    + done.
  - (* the device is absent: allocate *)
    destruct Hpc as [Hmu Hw]. symmetry in Hw.
    rewrite newWindow_Ok by done. cbn [mbind Outcome_bind bind]. intros [= <-].
    assert (Hlen : length (heap σ) = h0).
    { apply Hfresh; [done |]. intros j tj Hj.
      destruct (decide (j = tid)) as [-> | Hne]; [by simplify_eq |].
      pose proof (Hothers _ _ Hne Hj eq_refl). by destruct tj as [dj [| |?|?|?|?]]. }
    constructor; cbn [mu registry heap wsize update].
    + intros j tj Hj.
      destruct (lookup_update _ _ _ _ _ _ _ _ _ Ht Hj) as [[-> ->] | [Hne Hj']].
      * split; [done |]. cbn. rewrite length_app. cbn. repeat split; try done. lia.
      * pose proof (Hothers _ _ Hne Hj' eq_refl) as Hnh.
        pose proof (Hth _ _ Hj') as [Hdj Hpcj]. split; [done |].
        destruct tj as [dj [| |?|?|?|?]]; try done.
        cbn in Hpcj. destruct Hpcj as (_ & Hr & _). congruence.
    + apply Hexcl'. by left.
    + intros Hm. congruence.
    + intros _. exists tid. eexists. split; [by apply lookup_update_eq | done].
    + done.
    + intros _ Hall.
      by specialize (Hall tid _ (lookup_update_eq _ _ _ _ _ _ _ Ht)).
    + intros Hr. congruence.
    + done.
  - (* insert *)
    destruct Hpc as (Hmu & -> & Hr & Hlen).
    intros [= <-].
    constructor; cbn [mu registry heap wsize update]; rewrite ?lookup_insert_eq.
    + intros j tj Hj.
      destruct (lookup_update _ _ _ _ _ _ _ _ _ Ht Hj) as [[-> ->] | [Hne Hj']].
      * split; [done |]. cbn. by rewrite lookup_insert_eq.
      * pose proof (Hothers _ _ Hne Hj' eq_refl) as Hnh.
        pose proof (Hth _ _ Hj') as [Hdj Hpcj]. split; [done |].
        destruct tj as [dj [| |?|?|?|?]]; try done.
        cbn in Hpcj. destruct Hpcj as (_ & Hr' & _). congruence.
    + apply Hexcl'. by left.
    + intros Hm. congruence.
    + intros _. exists tid. eexists. split; [by apply lookup_update_eq | done].
    + by right.
    + done.
    + done.
    + done.
  - (* Unlock *)
    destruct Hpc as (Hmu & -> & Hr & Hlen).
    intros [= <-].
    constructor; cbn [mu registry heap wsize update].
    + intros j tj Hj.
      destruct (lookup_update _ _ _ _ _ _ _ _ _ Ht Hj) as [[-> ->] | [Hne Hj']];
        [done |].
      eapply non_holder_inv; [by eapply Hothers | by eapply Hth | done | done].
    + apply Hexcl'. by left.
    + intros _ j tj Hj.
      destruct (lookup_update _ _ _ _ _ _ _ _ _ Ht Hj) as [[-> ->] | [Hne Hj']];
        [done |].
      by eapply Hothers.
    + done.
    + done.
    + intros Hr'. congruence.
    + done.
    + done.
  - done.
Qed.

(** Under the invariant a step never panics, and a schedule of any length
    runs to a state that satisfies it again. *)
Lemma step_safe σ tid :
  inv σ -> step σ tid = Blocks \/ exists σ', step σ tid = Ok σ' /\ inv σ'.
Proof.
  intros Hinv.
  destruct (step σ tid) as [σ'| |msg] eqn:Hstep; [right | by left |].
  - exists σ'. split; [done | by eapply step_inv].
  - exfalso. unfold step in Hstep.
    destruct (threads σ !! tid) as [[d p]|]; [| done].
    destruct p as [| |[w|]|w|w|w]; cbn in Hstep; try done.
    + by destruct (mu σ).
    + by rewrite newWindow_Ok in Hstep by apply Hinv.
Qed.

Lemma exec_inv sched :
  forall σ, inv σ -> exists σ', exec σ sched = Ok σ' /\ inv σ'.
Proof.
  induction sched as [|tid sched IH]; intros σ Hinv; cbn [exec]; [eauto |].
  destruct (step_safe σ tid Hinv) as [-> | (σ' & -> & Hinv')]; by apply IH.
Qed.

(** No deadlock: while a thread has not returned, some thread can move. *)
Lemma progress σ :
  inv σ -> ~ all_returned σ -> exists tid σ', step σ tid = Ok σ'.
Proof.
  intros Hinv Hnot.
  destruct (mu σ) eqn:Hmu.
  - destruct (inv_held _ Hinv Hmu) as (i & [d p] & Hi & Hh).
    exists i. unfold step. rewrite Hi.
    destruct p as [| |[w|]|w|w|w]; cbn [t_pc]; try done; eauto.
    rewrite newWindow_Ok by apply Hinv. cbn. eauto.
  - apply not_Forall_Exists in Hnot; [| apply _].
    apply Exists_exists in Hnot as (t & Hin & Hnr).
    apply list_elem_of_lookup in Hin as [i Hi].
    pose proof (inv_free _ Hinv Hmu _ _ Hi) as Hh.
    exists i. unfold step. rewrite Hi.
    destruct t as [d [| |?|?|?|?]]; try done.
    + cbn [t_pc]. rewrite Hmu. eauto.
    + destruct Hnr. cbn. eauto.
Qed.

Lemma list_sum_insert (f : Thread -> nat) l i t t' :
  l !! i = Some t ->
  (list_sum (map f (<[i := t']> l)) + f t = list_sum (map f l) + f t')%nat.
Proof.
  revert i. induction l as [|x l IH]; intros [|i] Hi; try done.
  - cbn in Hi. injection Hi as ->.
    change (f t' + list_sum (map f l) + f t = f t + list_sum (map f l) + f t')%nat.
    lia.
  - cbn in Hi. specialize (IH i Hi).
    change (f x + list_sum (map f (<[i := t']> l)) + f t
            = f x + list_sum (map f l) + f t')%nat.
    lia.
Qed.

Lemma step_measure σ tid σ' :
  step σ tid = Ok σ' -> (measure σ' < measure σ)%nat.
Proof.
  unfold step, measure.
  destruct (threads σ !! tid) as [t|] eqn:Ht; [| done].
  assert (Hupd : forall next m r h,
             (remaining {| t_dev := t_dev t; t_pc := next |} < remaining t)%nat ->
             (list_sum (map remaining (threads (update σ tid t next m r h)))
              < list_sum (map remaining (threads σ)))%nat).
  { intros next m r h Hlt. cbn [threads update].
    pose proof (list_sum_insert remaining _ _ _
                  {| t_dev := t_dev t; t_pc := next |} Ht). lia. }
  destruct t as [d p].
  destruct p as [| |[w|]|w|w|w]; cbn [t_pc]; try done.
  - destruct (mu σ); [done |]. intros [= <-]. apply Hupd. cbn. lia.
  - intros [= <-]. apply Hupd. cbn. lia.
  - intros [= <-]. apply Hupd. cbn. lia.
  - destruct (newWindow (wsize σ)); cbn; try done.
    intros [= <-]. apply Hupd. cbn. lia.
  - intros [= <-]. apply Hupd. cbn. lia.
  - intros [= <-]. apply Hupd. cbn. lia.
Qed.

(** Every reachable state can be run to completion. *)
Lemma completion σ :
  inv σ -> exists sched σ', exec σ sched = Ok σ' /\ inv σ' /\ all_returned σ'.
Proof.
  remember (measure σ) as k eqn:Hk. revert σ Hk.
  induction k as [k IH] using lt_wf_ind. intros σ Hk Hinv.
  destruct (decide (all_returned σ)) as [Hall | Hnot].
  - exists [], σ. split; [done | split; done].
  - destruct (progress σ Hinv Hnot) as (tid & σ1 & Hstep).
    pose proof (step_inv _ _ _ Hinv Hstep) as Hinv1.
    pose proof (step_measure _ _ _ Hstep) as Hlt.
    destruct (IH (measure σ1) ltac:(lia) σ1 eq_refl Hinv1)
      as (sched & σ' & Hexec & Hinv' & Hall).
    exists (tid :: sched), σ'. cbn [exec]. by rewrite Hstep.
Qed.

(** At most one window is allocated. *)
Lemma heap_bound σ :
  inv σ -> length (heap σ) = h0 \/ length (heap σ) = S h0.
Proof.
  intros Hinv. destruct (inv_reg _ Hinv) as [Hnone | Hsome].
  - destruct (decide (Forall (fun t => at_insert t = false) (threads σ)))
      as [Hall | Hnot].
    + left. apply (inv_fresh _ Hinv Hnone). by apply Forall_lookup.
    + right. apply not_Forall_Exists in Hnot; [| apply _].
      apply Exists_exists in Hnot as (t & Hin & Hat).
      apply list_elem_of_lookup in Hin as [i Hi].
      destruct (inv_threads _ Hinv _ _ Hi) as [_ Hpc].
      destruct t as [d [| |?|?|?|?]]; try (by destruct Hat). apply Hpc.
  - right. by apply (inv_created _ Hinv).
Qed.

Lemma returned_inv σ i t w :
  inv σ -> threads σ !! i = Some t -> returned t = Some w ->
  w = h0 /\ registry σ !! dev = Some w /\ length (heap σ) = S h0.
Proof.
  intros Hinv Hi Hw. destruct (inv_threads _ Hinv _ _ Hi) as [_ Hpc].
  destruct t as [d [| |?|?|?|?]]; try done.
  cbn in Hw, Hpc. injection Hw as <-. destruct Hpc as (-> & Hr & Hl). done.
Qed.

End OneDevice.

Lemma step_threads_length σ tid σ' :
  step σ tid = Ok σ' -> length (threads σ') = length (threads σ).
Proof.
  unfold step. destruct (threads σ !! tid) as [[d p]|]; [| done].
  destruct p as [| |[w|]|w|w|w]; cbn [t_pc]; try done;
    try (intros [= <-]; cbn; by rewrite length_insert).
  - destruct (mu σ); [done |]. intros [= <-]. cbn. by rewrite length_insert.
  - destruct (newWindow (wsize σ)); cbn; try done.
    intros [= <-]. cbn. by rewrite length_insert.
Qed.

Lemma exec_threads_length sched :
  forall σ σ', exec σ sched = Ok σ' -> length (threads σ') = length (threads σ).
Proof.
  induction sched as [|tid sched IH]; intros σ σ'; cbn [exec].
  - by intros [= <-].
  - destruct (step σ tid) as [σ1| |] eqn:Hstep; try done.
    + intros H. rewrite (IH _ _ H). by eapply step_threads_length.
    + apply IH.
Qed.

(** A worker running alone does what [getOrCreate] does: a registered
    device keeps its window and nothing is allocated; an absent one gets a
    new, empty window of the configured capacity, registered under it. *)
Lemma solo_worker reg h ws dev :
  0 <= ws ->
  exec (spawn reg h ws dev 1) [0; 0; 0; 0; 0]%nat =
    Ok match reg !! dev with
       | Some w =>
           {| mu := false; registry := reg; heap := h; wsize := ws;
              threads := [{| t_dev := dev; t_pc := Returned w |}] |}
       | None =>
           {| mu := false; registry := <[dev := length h]> reg;
              heap := h ++ [{| cpuValues := []; rpsValues := []; timestamps := [];
                               maxSize := ws |}];
              wsize := ws;
              threads := [{| t_dev := dev; t_pc := Returned (length h) |}] |}
       end.
Proof.
  intros Hws. unfold spawn. cbn.
  destruct (reg !! dev) as [w|] eqn:Hreg; cbn; [done |].
  rewrite newWindow_Ok by done. done.
Qed.

(** C8. [n] workers run the registry lookup/insert of [analyze] for one
    device that is not registered yet, interleaved in any order [sched]:
    no step panics; at most one window has been allocated; every worker
    that is past the unlock holds the same window, the one the registry
    maps the device to; and the run can always be continued until all
    workers have returned (the mutex never deadlocks), at which point
    exactly one window has been created and is registered. *)
Theorem C8_at_most_one_creation
    (reg : gmap string nat) (h : list MetricWindow) (ws : Z)
    (dev : string) (n : nat) (sched : list nat) :
  0 <= ws -> reg !! dev = None ->
  exists σ,
    exec (spawn reg h ws dev n) sched = Ok σ /\
    (length (heap σ) = length h \/ length (heap σ) = S (length h)) /\
    (forall i t w,
        threads σ !! i = Some t -> returned t = Some w ->
        w = length h /\ registry σ !! dev = Some w /\
        length (heap σ) = S (length h)) /\
    exists sched' σ',
      exec σ sched' = Ok σ' /\
      length (threads σ') = n /\
      all_returned σ' /\
      (forall i t, threads σ' !! i = Some t -> returned t = Some (length h)) /\
      ((0 < n)%nat ->
       length (heap σ') = S (length h) /\
       registry σ' !! dev = Some (length h)).
Proof.
  intros Hws Hreg.
  pose proof (spawn_inv dev (length h) reg h ws n Hws Hreg eq_refl) as Hinv0.
  destruct (exec_inv dev (length h) sched _ Hinv0) as (σ & Hexec & Hinv).
  exists σ. split; [done |].
  split; [by eapply heap_bound |].
  split; [intros i t w; by eapply returned_inv |].
  destruct (completion dev (length h) σ Hinv) as (sched' & σ' & Hexec' & Hinv' & Hall).
  exists sched', σ'. split; [done |].
  assert (Hlen : length (threads σ') = n).
  { rewrite (exec_threads_length _ _ _ Hexec'), (exec_threads_length _ _ _ Hexec).
    cbn. apply repeat_length. }
  split; [done |]. split; [done |]. split.
  - intros i t Hi.
    pose proof (proj1 (Forall_lookup _ _) Hall _ _ Hi) as [w Hw].
    destruct (returned_inv dev (length h) _ _ _ _ Hinv' Hi Hw) as (-> & _).
    done.
  - intros Hn.
    destruct (lookup_lt_is_Some_2 (threads σ') 0 ltac:(lia)) as [t Ht].
    pose proof (proj1 (Forall_lookup _ _) Hall _ _ Ht) as [w Hw].
    destruct (returned_inv dev (length h) _ _ _ _ Hinv' Ht Hw) as (-> & Hr & Hl).
    done.
Qed.

Lemma C8_at_most_one_creation_witness :
  exists σ,
    exec (spawn ∅ [] 50 "dev-1" 3) [0; 1; 2; 0; 1; 0; 2; 0; 0; 1]%nat = Ok σ /\
    length (heap σ) = 1%nat /\
    map returned (threads σ) = [Some 0%nat; None; None].
Proof.
  destruct (C8_at_most_one_creation ∅ [] 50 "dev-1" 3
              [0; 1; 2; 0; 1; 0; 2; 0; 0; 1]%nat)
    as (σ & Hexec & _); [lia | reflexivity |].
  exists σ. split; [exact Hexec |].
  vm_compute in Hexec. injection Hexec as <-.
  split; reflexivity.
Defined.

(** Three workers, one window: a full interleaved run. *)
Example three_workers_one_window :
  exists σ,
    exec (spawn ∅ [] 50 "dev-1" 3)
         [0; 1; 2; 0; 1; 0; 2; 0; 0; 1; 1; 1; 1; 2; 2; 2; 2]%nat = Ok σ /\
    length (heap σ) = 1%nat /\
    registry σ !! "dev-1"%string = Some 0%nat /\
    map returned (threads σ) = [Some 0; Some 0; Some 0]%nat.
Proof. eexists. split; [vm_compute; reflexivity |]. by vm_compute. Qed.

End Race.

(** * Further properties of the analyzer *)

(** ** What a window holds *)

Lemma last_n_length {A} n (l : list A) :
  0 <= n -> Z.of_nat (length (last_n n l)) = Z.min (Z.of_nat (length l)) n.
Proof. intros Hn. unfold last_n. rewrite length_drop. lia. Qed.

(** Appending to the last [n] and trimming gives the last [n] again. *)
Lemma last_n_snoc {A} n (l : list A) x :
  0 <= n ->
  (if Z.of_nat (length (last_n n l ++ [x])) >? n
   then drop 1 (last_n n l ++ [x]) else last_n n l ++ [x])
  = last_n n (l ++ [x]).
Proof.
  intros Hn. pose proof (last_n_length n l Hn) as Hlen.
  rewrite length_app. cbn [length].
  unfold last_n in *. rewrite length_app. cbn [length].
  destruct (Z.gtb_spec (Z.of_nat (length (drop (length l - Z.to_nat n) l) + 1)) n)
    as [Hgt | Hle].
  - rewrite <- drop_app_le by lia. rewrite drop_drop. f_equal. lia.
  - rewrite <- drop_app_le by lia. f_equal. lia.
Qed.

Lemma appendWindow_window_from ws l data :
  0 <= ws -> appendWindow (window_from ws l) data = window_from ws (l ++ [data]).
Proof.
  intros Hws. unfold appendWindow, window_from. cbn [cpuValues rpsValues timestamps maxSize].
  rewrite !map_app. cbn [map].
  rewrite <- (last_n_snoc ws (map CPU l) (CPU data) Hws).
  rewrite <- (last_n_snoc ws (map RPS l) (RPS data) Hws).
  rewrite <- (last_n_snoc ws (map Timestamp l) (Timestamp data) Hws).
  assert (Hr : length (last_n ws (map RPS l) ++ [RPS data])
               = length (last_n ws (map CPU l) ++ [CPU data])).
  { rewrite !length_app. unfold last_n. by rewrite !length_drop, !length_map. }
  assert (Ht : length (last_n ws (map Timestamp l) ++ [Timestamp data])
               = length (last_n ws (map CPU l) ++ [CPU data])).
  { rewrite !length_app. unfold last_n. by rewrite !length_drop, !length_map. }
  rewrite Hr, Ht.
  by destruct (_ >? _).
Qed.

Lemma readings_of_snoc dev hist data :
  readings_of dev (hist ++ [data]) =
    readings_of dev hist ++ (if decide (DeviceID data = dev) then [data] else []).
Proof.
  unfold readings_of. rewrite filter_app, filter_cons, filter_nil.
  by destruct (decide _).
Qed.

Lemma tracks_window_of ws a hist dev :
  tracks ws a hist -> window_of a dev = window_from ws (readings_of dev hist).
Proof.
  intros [Hws Hwin]. unfold window_of. rewrite Hwin, Hws.
  by destruct (readings_of dev hist).
Qed.

Lemma NewAnalyzer_tracks ws T : tracks ws (NewAnalyzer ws T) [].
Proof. split; [done |]. intros dev. cbn. apply lookup_empty. Qed.

(** One reading more: the analyzer tracks the longer history, and the
    result is computed on the last [ws] readings of the device. *)
Lemma analyze_tracks ws a hist data a' r :
  0 <= ws -> tracks ws a hist -> analyze a data = Ok (a', r) ->
  tracks ws a' (hist ++ [data]) /\
  anomalyThreshold a' = anomalyThreshold a /\
  r = mkResult (anomalyThreshold a) data
        (windowStats (window_from ws (readings_of (DeviceID data) (hist ++ [data]))) data).
Proof.
  intros Hws Htr H. pose proof Htr as [Hsz Hwin].
  apply analyze_inv in H as (_ & -> & ->).
  rewrite (tracks_window_of ws a hist) by done.
  rewrite appendWindow_window_from by done.
  assert (Hsnoc : readings_of (DeviceID data) hist ++ [data]
                  = readings_of (DeviceID data) (hist ++ [data])).
  { rewrite readings_of_snoc. by rewrite decide_True. }
  rewrite Hsnoc. split; [| done].
  split; [done |]. intros dev. cbn [windows set_windows].
  rewrite lookup_insert. destruct (decide (DeviceID data = dev)) as [<- | Hne].
  - rewrite <- Hsnoc. by destruct (readings_of (DeviceID data) hist).
  - rewrite Hwin, readings_of_snoc, decide_False, app_nil_r by done. done.
Qed.

Lemma analyze_all_tracks ws readings :
  0 <= ws ->
  forall a hist a' rs,
    tracks ws a hist -> analyze_all a readings = Ok (a', rs) ->
    tracks ws a' (hist ++ readings) /\
    length rs = length readings /\
    forall i d, readings !! i = Some d ->
      rs !! i =
        Some (mkResult (anomalyThreshold a) d
                (windowStats
                   (window_from ws (readings_of (DeviceID d) (hist ++ take (S i) readings)))
                   d)).
Proof.
  intros Hws. induction readings as [|data rest IH]; intros a hist a' rs Htr; cbn [analyze_all].
  - intros [= <- <-]. rewrite app_nil_r.
    split; [done |]. split; [done |]. intros i d Hd. by destruct i.
  - destruct (analyze a data) as [[a1 r]| |] eqn:H1; cbn; try discriminate.
    destruct (analyze_all a1 rest) as [[a2 rs2]| |] eqn:H2; cbn; try discriminate.
    intros [= <- <-].
    destruct (analyze_tracks _ _ _ _ _ _ Hws Htr H1) as (Htr1 & HT1 & ->).
    destruct (IH _ _ _ _ Htr1 H2) as (Htr2 & Hlen & Hres).
    rewrite <- app_assoc in Htr2. cbn in Htr2.
    split; [done |]. split; [cbn; by rewrite Hlen |].
    intros [|i] d Hd; cbn in Hd.
    + injection Hd as <-. cbn. by rewrite take_0.
    + match goal with
      | |- (?x :: rs2) !! S i = _ => change ((x :: rs2) !! S i) with (rs2 !! i)
      end.
      rewrite (Hres i d Hd), HT1.
      by rewrite <- app_assoc.
Qed.

(** X1. After any sequence of readings, the window of a device holds the
    last [windowSize] readings of that device, in arrival order (all of them
    when there are fewer): CPU values, request rates and timestamps alike.
    A device without a reading has no window. *)
Theorem window_holds_last_readings ws T readings a rs dev :
  0 <= ws ->
  analyze_all (NewAnalyzer ws T) readings = Ok (a, rs) ->
  (readings_of dev readings = [] -> windows a !! dev = None) /\
  (readings_of dev readings <> [] ->
   exists w,
     windows a !! dev = Some w /\
     cpuValues w = last_n ws (map CPU (readings_of dev readings)) /\
     rpsValues w = last_n ws (map RPS (readings_of dev readings)) /\
     timestamps w = last_n ws (map Timestamp (readings_of dev readings)) /\
     maxSize w = ws).
Proof.
  intros Hws Hrun.
  destruct (analyze_all_tracks ws readings Hws _ [] _ _ (NewAnalyzer_tracks ws T) Hrun)
    as ([_ Hwin] & _).
  cbn [app] in Hwin. specialize (Hwin dev).
  destruct (readings_of dev readings) as [|d l] eqn:Hl.
  - split; [done |]. intros Hne. by destruct Hne.
  - split; [done |]. intros _. eexists. split; [exact Hwin |]. done.
Qed.

Lemma window_holds_last_readings_witness :
  exists a rs w,
    analyze_all (NewAnalyzer 2 2%float)
      [reading "a" 1 10%float 1%float; reading "b" 2 20%float 2%float;
       reading "a" 3 30%float 3%float; reading "a" 4 40%float 4%float]
    = Ok (a, rs) /\
    windows a !! "a"%string = Some w /\
    cpuValues w = [30%float; 40%float] /\ timestamps w = [3; 4].
Proof.
  destruct (analyze_all_Ok
              [reading "a" 1 10%float 1%float; reading "b" 2 20%float 2%float;
               reading "a" 3 30%float 3%float; reading "a" 4 40%float 4%float]
              (NewAnalyzer 2 2%float)) as (a & rs & Hrun); [cbn; lia |].
  destruct (window_holds_last_readings 2 2%float _ a rs "a" ltac:(lia) Hrun)
    as [_ Hsome].
  destruct Hsome as (w & Hw & Hc & _ & Ht & _); [done |].
  exists a, rs, w. split; [exact Hrun |]. split; [exact Hw |].
  split; [rewrite Hc | rewrite Ht]; reflexivity.
Defined.

(** X2. The results come one per reading, in order, each with the device
    and timestamp of its reading, and each computed from the last
    [windowSize] readings of the same device up to and including that
    reading: nothing else of the past enters a result. *)
Theorem result_of_each_reading ws T readings a rs :
  0 <= ws ->
  analyze_all (NewAnalyzer ws T) readings = Ok (a, rs) ->
  length rs = length readings /\
  forall i d, readings !! i = Some d ->
    exists r,
      rs !! i = Some r /\
      rDeviceID r = DeviceID d /\ rTimestamp r = Timestamp d /\
      let w := window_from ws (readings_of (DeviceID d) (take (S i) readings)) in
      r = mkResult T d (windowStats w d) /\
      RollingAvgCPU r = calculateAverage (cpuValues w) /\
      RollingAvgRPS r = calculateAverage (rpsValues w).
Proof.
  intros Hws Hrun.
  destruct (analyze_all_tracks ws readings Hws _ [] _ _ (NewAnalyzer_tracks ws T) Hrun)
    as (_ & Hlen & Hres).
  split; [done |]. intros i d Hd. eexists. split; [by apply Hres |].
  cbn [app anomalyThreshold NewAnalyzer].
  destruct (mkResult_RollingAvg T d
              (windowStats
                 (window_from ws (readings_of (DeviceID d) (take (S i) readings))) d))
    as [-> ->].
  unfold mkResult. by destruct (classify _ _ _).
Qed.

Lemma result_of_each_reading_witness :
  exists a rs,
    analyze_all (NewAnalyzer 2 2%float)
      [reading "a" 1 10%float 1%float; reading "b" 2 20%float 2%float;
       reading "a" 3 30%float 3%float; reading "a" 4 40%float 4%float]
    = Ok (a, rs) /\
    length rs = 4%nat /\
    exists r, rs !! 3%nat = Some r /\ RollingAvgCPU r = 35%float.
Proof.
  destruct (analyze_all_Ok
              [reading "a" 1 10%float 1%float; reading "b" 2 20%float 2%float;
               reading "a" 3 30%float 3%float; reading "a" 4 40%float 4%float]
              (NewAnalyzer 2 2%float)) as (a & rs & Hrun); [cbn; lia |].
  destruct (result_of_each_reading 2 2%float _ a rs ltac:(lia) Hrun) as [Hlen Hres].
  destruct (Hres 3%nat (reading "a" 4 40%float 4%float) eq_refl)
    as (r & Hr & _ & _ & _ & Havg & _).
  exists a, rs. split; [exact Hrun |]. split; [exact Hlen |].
  exists r. split; [exact Hr |]. rewrite Havg. reflexivity.
Defined.

(** The readings of one device, fed alone, against the whole stream. *)
Lemma analyze_all_project ws dev readings :
  0 <= ws ->
  forall a b hist a' rs,
    tracks ws a hist -> tracks ws b (readings_of dev hist) ->
    anomalyThreshold a = anomalyThreshold b ->
    analyze_all a readings = Ok (a', rs) ->
    exists b' rs',
      analyze_all b (readings_of dev readings) = Ok (b', rs') /\
      rs' = filter (fun r => rDeviceID r = dev) rs /\
      windows b' !! dev = windows a' !! dev.
Proof.
  intros Hws. induction readings as [|data rest IH]; intros a b hist a' rs Ha Hb HT;
    cbn [analyze_all].
  - intros [= <- <-]. exists b, []. split; [done |]. split; [done |].
    destruct Ha as [_ Ha], Hb as [_ Hb]. rewrite Ha, Hb.
    unfold readings_of. rewrite list_filter_filter.
    assert (Hf : filter (fun d => DeviceID d = dev /\ DeviceID d = dev) hist
                 = filter (fun d => DeviceID d = dev) hist)
      by (apply list_filter_iff; tauto).
    by rewrite Hf.
  - destruct (analyze a data) as [[a1 r]| |] eqn:H1; cbn -[readings_of filter];
      try discriminate.
    destruct (analyze_all a1 rest) as [[a2 rs2]| |] eqn:H2; cbn -[readings_of filter];
      try discriminate.
    intros [= <- <-].
    destruct (analyze_tracks _ _ _ _ _ _ Hws Ha H1) as (Ha1 & HT1 & Hr).
    assert (Hrd : rDeviceID r = DeviceID data).
    { rewrite Hr. unfold mkResult. by destruct (classify _ _ _). }
    unfold readings_of at 1. rewrite filter_cons, filter_cons, Hrd.
    fold (readings_of dev rest).
    destruct (decide (DeviceID data = dev)) as [Hd | Hd].
    + cbn [analyze_all].
      assert (Hbwin : is_Some (windows b !! DeviceID data) \/ 0 <= windowSize b)
        by (right; destruct Hb as [-> _]; done).
      pose proof (analyze_Ok b data Hbwin) as Hb1. cbv zeta in Hb1.
      destruct (analyze_tracks _ _ _ _ _ _ Hws Hb Hb1) as (Hb1' & HTb & Hrb).
      rewrite Hb1. cbn -[readings_of filter].
      assert (Hhist : readings_of dev hist ++ [data] = readings_of dev (hist ++ [data])).
      { rewrite readings_of_snoc. by rewrite decide_True. }
      rewrite Hhist in Hb1'.
      edestruct (IH _ _ (hist ++ [data]) a2 rs2 Ha1 Hb1') as (b' & rs' & Hrun' & Hrs' & Hw');
        [congruence | done |].
      rewrite Hrun'. cbn -[readings_of filter]. eexists _, _. split; [reflexivity |]. split; [| done].
      f_equal; [| done].
      rewrite Hr, Hrb, HT. f_equal. f_equal. f_equal.
      subst dev. rewrite Hhist.
      unfold readings_of. rewrite list_filter_filter. apply list_filter_iff. tauto.
    + assert (Hhist : readings_of dev hist = readings_of dev (hist ++ [data])).
      { rewrite readings_of_snoc, decide_False, app_nil_r by done. done. }
      rewrite Hhist in Hb.
      edestruct (IH _ _ (hist ++ [data]) a2 rs2 Ha1 Hb) as (b' & rs' & Hrun' & Hrs' & Hw');
        [congruence | done |].
      eauto.
Qed.

(** X3. Devices do not influence each other: feeding the analyzer only
    the readings of one device yields, for that device, the same results
    and the same final window as the full stream does. *)
Theorem devices_are_independent ws T readings a rs dev :
  0 <= ws ->
  analyze_all (NewAnalyzer ws T) readings = Ok (a, rs) ->
  exists a' rs',
    analyze_all (NewAnalyzer ws T) (readings_of dev readings) = Ok (a', rs') /\
    rs' = filter (fun r => rDeviceID r = dev) rs /\
    windows a' !! dev = windows a !! dev.
Proof.
  intros Hws Hrun.
  eapply (analyze_all_project ws dev readings Hws _ _ []); eauto using NewAnalyzer_tracks.
Qed.

Lemma devices_are_independent_witness :
  exists a' rs',
    analyze_all (NewAnalyzer 2 2%float)
      (readings_of "a"
         [reading "a" 1 10%float 1%float; reading "b" 2 20%float 2%float;
          reading "a" 3 30%float 3%float])
    = Ok (a', rs') /\
    map RollingAvgCPU rs' = [10%float; 20%float].
Proof.
  destruct (analyze_all_Ok
              [reading "a" 1 10%float 1%float; reading "b" 2 20%float 2%float;
               reading "a" 3 30%float 3%float]
              (NewAnalyzer 2 2%float)) as (a & rs & Hrun); [cbn; lia |].
  destruct (devices_are_independent 2 2%float _ a rs "a" ltac:(lia) Hrun)
    as (a' & rs' & Hrun' & Hrs' & _).
  exists a', rs'. split; [exact Hrun' |].
  vm_compute in Hrun'. injection Hrun' as _ <-. reflexivity.
Defined.



(** ** Signs: what the scores and the labels mean *)

Lemma abs_not_negative x : (abs x <? 0)%float = false.
Proof.
  rewrite FloatAxioms.ltb_spec, abs_spec, F64.Prim2SF_zero.
  by destruct (Prim2SF x) as [s|s| |s m e].
Qed.

Lemma binary_round_aux_not_negative m e l :
  SFltb (binary_round_aux prec emax false m e l) (S754_zero false) = false.
Proof.
  unfold binary_round_aux.
  destruct (shr_fexp prec emax m e l) as [mrs' e'].
  destruct (shr_fexp prec emax _ e' loc_Exact) as [mrs'' e''].
  destruct (shr_m mrs''); try done. by destruct (_ <=? _).
Qed.

Lemma sqrt_not_negative x : (sqrt x <? 0)%float = false.
Proof.
  rewrite FloatAxioms.ltb_spec, sqrt_spec, F64.Prim2SF_zero.
  unfold SF64sqrt, SFsqrt.
  destruct (Prim2SF x) as [s|s| |s m e]; try done.
  - by destruct s.
  - destruct s; [done |].
    destruct (SFsqrt_core_binary prec emax (Z.pos m) e) as [[mz ez] lz].
    apply binary_round_aux_not_negative.
Qed.

Lemma math_Max_not_negative x y :
  (x <? 0)%float = false -> (y <? 0)%float = false ->
  (math_Max x y <? 0)%float = false.
Proof.
  intros Hx Hy. unfold math_Max, fgt.
  destruct (_ || _); [done |]. destruct (_ || _); [done |].
  destruct (_ && _); [by destruct (get_sign x) |].
  by destruct (y <? x)%float.
Qed.

Lemma calculateStdDev_not_negative values mean :
  (calculateStdDev values mean <? 0)%float = false.
Proof.
  unfold calculateStdDev. destruct (_ =? _)%nat; [done |]. apply sqrt_not_negative.
Qed.

(** X5. The anomaly score and the reported standard deviation of a result
    are never negative: each is a number >= 0, an infinity, or NaN. *)
Theorem scores_not_negative a data a' r :
  analyze a data = Ok (a', r) ->
  (AnomalyScore r <? 0)%float = false /\ (StandardDev r <? 0)%float = false.
Proof.
  intros H. apply analyze_inv in H as (_ & _ & ->).
  rewrite mkResult_AnomalyScore, mkResult_StandardDev. split.
  - apply math_Max_not_negative; apply abs_not_negative.
  - apply math_Max_not_negative; apply calculateStdDev_not_negative.
Qed.

Lemma scores_not_negative_witness :
  exists a' r,
    analyze warm_analyzer (reading "dev-1" 9 100%float 10%float) = Ok (a', r) /\
    (AnomalyScore r <? 0)%float = false.
Proof.
  pose proof (analyze_Ok warm_analyzer (reading "dev-1" 9 100%float 10%float)
                (or_intror warm_analyzer_windowSize)) as Hrun.
  cbv zeta in Hrun.
  eexists _, _. split; [exact Hrun |].
  exact (proj1 (scores_not_negative _ _ _ _ Hrun)).
Defined.

(** A positive number is its own magnitude. *)
Lemma abs_of_positive z : fgt z 0%float = true -> abs z = z.
Proof.
  unfold fgt. rewrite FloatAxioms.ltb_spec, F64.Prim2SF_zero. intros Hz.
  apply Prim2SF_inj. rewrite abs_spec.
  destruct (Prim2SF z) as [s|s| |s m e]; try done; by destruct s.
Qed.

(** A number that exceeds a non-negative threshold in magnitude and is not
    positive is negative. *)
Lemma negative_of_large_magnitude z T :
  fgt 0%float T = false -> fgt (abs z) T = true -> fgt z 0%float = false ->
  (z <? 0)%float = true.
Proof.
  unfold fgt. rewrite !FloatAxioms.ltb_spec, abs_spec, F64.Prim2SF_zero.
  destruct (Prim2SF z) as [s|s| |s m e]; cbn [SFabs].
  - intros -> [=].
  - by destruct s.
  - unfold SFltb. destruct (Prim2SF T); done.
  - by destruct s.
Qed.

(** X6. With a threshold that is not negative the single-signal labels
    give the direction of the excursion: CPU_SPIKE means the CPU z-score is
    above the threshold, CPU_DROP that it is negative with a magnitude above
    the threshold, in both cases with the request rate within the threshold;
    likewise RPS_SPIKE and RPS_DROP; and the empty type means that neither
    magnitude exceeds the threshold. *)
Theorem labels_give_direction a data a' r w' :
  analyze a data = Ok (a', r) ->
  windows a' !! DeviceID data = Some w' ->
  fgt 0%float (anomalyThreshold a) = false ->
  let st := windowStats w' data in
  let T := anomalyThreshold a in
  (AnomalyType r = "CPU_SPIKE"%string ->
   fgt (zScoreCPU st) T = true /\ fgt (math_Abs (zScoreRPS st)) T = false) /\
  (AnomalyType r = "CPU_DROP"%string ->
   (zScoreCPU st <? 0)%float = true /\ fgt (math_Abs (zScoreCPU st)) T = true /\
   fgt (math_Abs (zScoreRPS st)) T = false) /\
  (AnomalyType r = "RPS_SPIKE"%string ->
   fgt (zScoreRPS st) T = true /\ fgt (math_Abs (zScoreCPU st)) T = false) /\
  (AnomalyType r = "RPS_DROP"%string ->
   (zScoreRPS st <? 0)%float = true /\ fgt (math_Abs (zScoreRPS st)) T = true /\
   fgt (math_Abs (zScoreCPU st)) T = false) /\
  (AnomalyType r = EmptyString <->
   fgt (math_Abs (zScoreCPU st)) T = false /\ fgt (math_Abs (zScoreRPS st)) T = false).
Proof.
  intros H Hw' HT st T.
  destruct (analyze_result _ _ _ _ _ H Hw') as [_ ->]. fold st. fold T.
  rewrite mkResult_AnomalyType, classify_cases.
  unfold math_Abs in *.
  destruct (fgt (abs (zScoreCPU st)) T) eqn:Hc, (fgt (abs (zScoreRPS st)) T) eqn:Hr;
    cbn [snd].
  - repeat split; try discriminate. by intros [? ?].
  - destruct (fgt (zScoreCPU st) 0%float) eqn:Hpos.
    + repeat split; try discriminate.
      * rewrite <- (abs_of_positive _ Hpos). done.
      * by intros [? ?].
    + repeat split; try discriminate.
      * by eapply negative_of_large_magnitude.
      * by intros [? ?].
  - destruct (fgt (zScoreRPS st) 0%float) eqn:Hpos.
    + repeat split; try discriminate.
      * rewrite <- (abs_of_positive _ Hpos). done.
      * by intros [? ?].
    + repeat split; try discriminate.
      * by eapply negative_of_large_magnitude.
      * by intros [? ?].
  - repeat split; try discriminate.
Qed.

Lemma labels_give_direction_witness :
  exists a' r,
    analyze warm_analyzer (reading "dev-1" 9 10%float 1%float) = Ok (a', r) /\
    AnomalyType r = "RPS_DROP"%string /\
    PrimFloat.ltb
      (zScoreRPS (windowStats (appendWindow (window_of warm_analyzer "dev-1")
                                            (reading "dev-1" 9 10%float 1%float))
                              (reading "dev-1" 9 10%float 1%float)))
      0%float = true.
Proof.
  pose proof (analyze_Ok warm_analyzer (reading "dev-1" 9 10%float 1%float)
                (or_intror warm_analyzer_windowSize)) as Hrun.
  cbv zeta in Hrun.
  pose proof (labels_give_direction _ _ _ _ _ Hrun (lookup_insert_eq _ _ _) eq_refl)
    as Hthm.
  cbv zeta in Hthm. destruct Hthm as (_ & _ & _ & Hdrop & _).
  eexists _, _. split; [exact Hrun |].
  assert (Hty : AnomalyType
                  (mkResult (anomalyThreshold warm_analyzer)
                     (reading "dev-1" 9 10%float 1%float)
                     (windowStats
                        (appendWindow (window_of warm_analyzer "dev-1")
                           (reading "dev-1" 9 10%float 1%float))
                        (reading "dev-1" 9 10%float 1%float)))
                = "RPS_DROP"%string) by (vm_compute; reflexivity).
  split; [exact Hty |]. exact (proj1 (Hdrop Hty)).
Defined.

(** ** The queues *)

Lemma chan_send_within {A} (ch ch' : Chan A) v :
  chan_within ch -> select_send_default ch v = Ok ch' ->
  chan_within ch' /\ cap ch' = cap ch.
Proof.
  unfold select_send_default, chan_send, chan_within.
  destruct (closed ch); [done |].
  destruct (Nat.ltb_spec (length (buf ch)) (cap ch)); intros Hw [= <-]; cbn; [| done].
  rewrite length_app. cbn. lia.
Qed.

Lemma chan_recv_within {A} (ch ch' : Chan A) v :
  chan_within ch -> chan_recv ch = Ok (v, ch') ->
  chan_within ch' /\ cap ch' = cap ch.
Proof.
  unfold chan_recv, chan_within.
  destruct (buf ch) as [|x rest] eqn:Hbuf.
  - destruct (closed ch); [| done]. intros Hw [= <- <-]. rewrite Hbuf. done.
  - intros Hw [= <- <-]. cbn in *. lia.
Qed.

Lemma chan_close_within {A} (ch ch' : Chan A) :
  chan_within ch -> chan_close ch = Ok ch' -> chan_within ch' /\ cap ch' = cap ch.
Proof.
  unfold chan_close, chan_within. destruct (closed ch); [done |].
  by intros Hw [= <-].
Qed.

Lemma analyze_channels a data a' r :
  analyze a data = Ok (a', r) ->
  metricsChan a' = metricsChan a /\ resultsChan a' = resultsChan a /\
  stopChan a' = stopChan a /\ wg a' = wg a.
Proof. intros H. by apply analyze_inv in H as (_ & -> & _). Qed.

Lemma exec_op_bounded a op a' :
  queues_bounded a -> exec_op a op = Ok a' -> queues_bounded a'.
Proof.
  intros (Hm & Hmc & Hr & Hrc). destruct op as [data| | | |]; cbn [exec_op].
  - unfold AddMetric.
    destruct (select_send_default (metricsChan a) data) as [ch| |] eqn:Hs; cbn; try done.
    intros [= <-]. destruct (chan_send_within _ _ _ Hm Hs) as [Hw Hc].
    repeat split; cbn; try done. congruence.
  - unfold processMetrics_step. destruct (wg a) as [|n]; [done |].
    destruct (closed (stopChan a)); [by intros [= <-] |].
    destruct (chan_recv (metricsChan a)) as [[d ch]| |] eqn:Hrecv; cbn; try done.
    destruct (chan_recv_within _ _ _ Hm Hrecv) as [Hw Hc].
    destruct (analyze _ _) as [[a1 r]| |] eqn:Han; cbn; try done.
    destruct (analyze_channels _ _ _ _ Han) as (Hm1 & Hr1 & _ & _). cbn in Hm1, Hr1.
    destruct (select_send_default (resultsChan a1) r) as [rch| |] eqn:Hs; cbn; try done.
    intros [= <-]. rewrite Hr1 in Hs.
    destruct (chan_send_within _ _ _ Hr Hs) as [Hw' Hc'].
    repeat split; cbn; rewrite ?Hm1; try done; congruence.
  - unfold recvResult.
    destruct (chan_recv (resultsChan a)) as [[r ch]| |] eqn:Hrecv; cbn; try done.
    intros [= <-]. destruct (chan_recv_within _ _ _ Hr Hrecv) as [Hw Hc].
    repeat split; cbn; try done. congruence.
  - by intros [= <-].
  - unfold Stop.
    destruct (chan_close (stopChan a)) as [sc| |]; cbn; try done.
    destruct (chan_close (metricsChan a)) as [mc| |] eqn:Hcm; cbn; try done.
    destruct (chan_close (resultsChan a)) as [rc| |] eqn:Hcr; cbn; try done.
    intros [= <-].
    destruct (chan_close_within _ _ Hm Hcm) as [? ?].
    destruct (chan_close_within _ _ Hr Hcr) as [? ?].
    repeat split; cbn; try done; congruence.
Qed.

Lemma run_bounded ops :
  forall a a', queues_bounded a -> run a ops = Ok a' -> queues_bounded a'.
Proof.
  induction ops as [|op ops IH]; intros a a' Ha; cbn [run].
  - by intros [= <-].
  - destruct (exec_op a op) as [a1| |] eqn:Hop; try done.
    + apply IH. by eapply exec_op_bounded.
    + by apply IH.
Qed.

(** X7. Whatever is done to a started engine, in any order and for any
    configuration, neither queue ever holds more than 1000 entries; the
    queue depth [GetStats] reports is at most 1000. *)
Theorem queues_never_exceed_capacity ws T n ops a :
  run (Start (NewAnalyzer ws T) n) ops = Ok a ->
  (length (buf (metricsChan a)) <= 1000)%nat /\
  (length (buf (resultsChan a)) <= 1000)%nat /\
  ((GetStats a).2 <= 1000)%nat.
Proof.
  intros Hrun.
  assert (H0 : queues_bounded (Start (NewAnalyzer ws T) n))
    by (repeat split; cbn; unfold chan_within; cbn; lia).
  destruct (run_bounded ops _ _ H0 Hrun) as (Hm & Hmc & Hr & Hrc).
  unfold chan_within in *. cbn. lia.
Qed.

Lemma queues_never_exceed_capacity_witness :
  (length (buf (metricsChan saturated_analyzer)) <= 1000)%nat.
Proof.
  assert (Hrun : run (Start (NewAnalyzer 50 2%float) 4)
                     (repeat (OpAddMetric quiet_reading) 1000 ++ [OpAddMetric quiet_reading])
                 = Ok saturated_analyzer) by (vm_compute; reflexivity).
  exact (proj1 (queues_never_exceed_capacity _ _ _ _ _ Hrun)).
Defined.

(** A burst of submissions with no worker in between. *)
Lemma AddMetric_burst readings :
  forall a,
    closed (metricsChan a) = false -> chan_within (metricsChan a) ->
    run a (map OpAddMetric readings) =
      Ok (set_metricsChan a
            {| buf := take (cap (metricsChan a)) (buf (metricsChan a) ++ readings);
               cap := cap (metricsChan a); closed := false |}).
Proof.
  induction readings as [|d rest IH]; intros a Hopen Hw; cbn [map run].
  - rewrite app_nil_r, take_ge by done. f_equal.
    destruct a as [? ? ? [? ? ?] ? ? ?]. cbn in *. by subst.
  - cbn [exec_op]. unfold AddMetric. rewrite select_send_default_open by done.
    unfold mbind, Outcome_bind. cbn [bind].
    unfold chan_within in Hw.
    destruct (Nat.ltb_spec (length (buf (metricsChan a))) (cap (metricsChan a))) as [Hlt|Hge].
    + rewrite IH; cbn; [| done | unfold chan_within; cbn; rewrite length_app; cbn; lia].
      by rewrite <- app_assoc.
    + rewrite set_metricsChan_id, IH by done.
      do 2 f_equal. f_equal.
      rewrite !take_app_le by lia. done.
Qed.

(** X8. A burst of submissions to a running engine, with no worker
    iteration in between, leaves in the ingestion queue what was there
    followed by the new readings in order, cut at the capacity: the oldest
    are kept and the readings that do not fit are the ones dropped. *)
Theorem burst_keeps_oldest ws T n readings :
  exists a,
    run (Start (NewAnalyzer ws T) n) (map OpAddMetric readings) = Ok a /\
    buf (metricsChan a) = take 1000 readings /\
    windows a = ∅ /\ buf (resultsChan a) = [].
Proof.
  eexists. split.
  - apply AddMetric_burst; [done |]. unfold chan_within. cbn. lia.
  - done.
Qed.

(** ** Workers and the pipeline *)

Lemma select_send_default_cap {A} (ch ch' : Chan A) v :
  select_send_default ch v = Ok ch' -> cap ch' = cap ch.
Proof.
  unfold select_send_default, chan_send. destruct (closed ch); [done |].
  destruct (_ <? _)%nat; by intros [= <-].
Qed.

Lemma processMetrics_step_config a a' :
  processMetrics_step a = Ok a' ->
  cap (resultsChan a') = cap (resultsChan a) /\
  windowSize a' = windowSize a /\
  anomalyThreshold a' = anomalyThreshold a.
Proof.
  unfold processMetrics_step. destruct (wg a); [done |].
  destruct (closed (stopChan a)); [by intros [= <-] |].
  destruct (chan_recv (metricsChan a)) as [[d ch]| |]; cbn; try done.
  destruct (analyze _ _) as [[a1 r]| |] eqn:Han; cbn; try done.
  apply analyze_inv in Han as (_ & -> & _).
  destruct (select_send_default _ r) as [rch| |] eqn:Hs; cbn; try done.
  intros [= <-]. apply select_send_default_cap in Hs. by cbn in *.
Qed.

Lemma processMetrics_step_oldest a d rest :
  running a -> (0 < wg a)%nat -> buf (metricsChan a) = d :: rest ->
  exists a1 r a',
    analyze a d = Ok (a1, r) /\
    processMetrics_step a = Ok a' /\
    buf (metricsChan a') = rest /\
    windows a' = windows a1 /\
    wg a' = wg a /\
    buf (resultsChan a') =
      (if (length (buf (resultsChan a)) <? cap (resultsChan a))%nat
       then buf (resultsChan a) ++ [r] else buf (resultsChan a)).
Proof.
  intros (Hs & Hm & Hr & Hws) Hwg Hbuf.
  eexists _, _, _. split; [apply analyze_Ok; by right |].
  unfold processMetrics_step. destruct (wg a) as [|n] eqn:Hn; [lia |].
  rewrite Hs. unfold chan_recv. rewrite Hbuf.
  unfold mbind, Outcome_bind. cbn [bind].
  rewrite analyze_Ok by (right; cbn; lia). cbn [bind].
  rewrite select_send_default_open by (cbn; done). cbn [bind].
  split; [reflexivity |]. cbn. rewrite Hn.
  repeat split; try (by destruct_if).
Qed.

(** X9. One worker iteration on a running engine takes the oldest queued
    reading and no other, applies [analyze] to it, and offers the result to
    the result queue: appended at the tail when there is room, dropped when
    the queue is full, in which case the window has absorbed the reading all
    the same.  The engine is still running afterwards, with the same number
    of workers. *)
Theorem worker_consumes_oldest a d rest :
  running a -> (0 < wg a)%nat -> buf (metricsChan a) = d :: rest ->
  exists a1 r a',
    analyze a d = Ok (a1, r) /\
    processMetrics_step a = Ok a' /\
    buf (metricsChan a') = rest /\
    windows a' = windows a1 /\
    wg a' = wg a /\
    buf (resultsChan a') =
      (if (length (buf (resultsChan a)) <? cap (resultsChan a))%nat
       then buf (resultsChan a) ++ [r] else buf (resultsChan a)) /\
    running a' /\ cap (resultsChan a') = cap (resultsChan a).
Proof.
  intros Ha Hwg Hbuf.
  destruct (processMetrics_step_oldest a d rest Ha Hwg Hbuf)
    as (a1 & r & a' & Han & Hstep & Hm & Hw & Hwg' & Hr).
  exists a1, r, a'. repeat (split; [done |]). split.
  - destruct (processMetrics_step_running a Ha) as [Hb | (a'' & Hs'' & Hr'')];
      congruence.
  - apply (processMetrics_step_config _ _ Hstep).
Qed.

Lemma worker_consumes_oldest_witness :
  exists a',
    processMetrics_step saturated_analyzer = Ok a' /\
    length (buf (metricsChan a')) = 999%nat /\
    length (buf (resultsChan a')) = 1%nat.
Proof.
  destruct (worker_consumes_oldest saturated_analyzer quiet_reading
              (repeat quiet_reading 999))
    as (a1 & r & a' & _ & Hstep & Hm & _ & _ & Hr & _).
  - repeat split; vm_compute; congruence.
  - vm_compute. lia.
  - vm_compute. reflexivity.
  - exists a'. split; [exact Hstep |]. rewrite Hm, Hr. split; reflexivity.
Defined.





(** ** Shutdown *)

Lemma range_results_S fuel a :
  range_results (S fuel) a =
    bind (recvResult a)
      (fun '(r, a) =>
         match r with
         | None => Ok ([], a)
         | Some r => bind (range_results fuel a) (fun '(rs, a) => Ok (r :: rs, a))
         end).
Proof. reflexivity. Qed.

Lemma range_results_closed out :
  forall a,
    closed (resultsChan a) = true -> buf (resultsChan a) = out ->
    exists a',
      range_results (S (length out)) a = Ok (out, a') /\
      buf (resultsChan a') = [] /\ closed (resultsChan a') = true /\
      windows a' = windows a /\ metricsChan a' = metricsChan a.
Proof.
  induction out as [|r out IH]; intros a Hc Hbuf; rewrite range_results_S;
    unfold recvResult, chan_recv; rewrite Hbuf; unfold mbind, Outcome_bind.
  - rewrite Hc. cbn [bind]. exists (set_resultsChan a (resultsChan a)).
    cbn. by rewrite Hbuf.
  - cbn [bind length].
    destruct (IH (set_resultsChan a
                    {| buf := out; cap := cap (resultsChan a);
                       closed := closed (resultsChan a) |})) as (a' & -> & Hrest);
      [done | done |].
    exists a'. split; [done |]. exact Hrest.
Qed.

Lemma range_results_open fuel :
  forall a, closed (resultsChan a) = false -> range_results fuel a = Blocks.
Proof.
  induction fuel as [|fuel IH]; intros a Hopen; [done |].
  cbn [range_results]. unfold recvResult, chan_recv. rewrite Hopen.
  destruct (buf (resultsChan a)) as [|r rest]; [done |].
  unfold mbind, Outcome_bind. cbn [bind]. by rewrite IH.
Qed.




(** ** The request layer *)

(** X12. [SubmitMetric] turns away a request that is not a POST (405),
    whose body does not decode (400) or whose metric has no device
    identifier (400): the engine is left as it was, nothing is sent to
    Redis and the metric is not counted as received. *)
Theorem SubmitMetric_rejects a method decoded now :
  method <> "POST"%string \/ decoded = None \/
  (exists m, decoded = Some m /\ mDeviceID m = EmptyString) ->
  exists code msg,
    SubmitMetric a method decoded now =
      Ok (a, {| status := code; body := ErrorText msg |},
          [requestsTotal method "/metrics"
             (if (code =? 405)%Z then "405"%string else "400"%string);
           requestDuration method "/metrics"]) /\
    (code = 405 /\ method <> "POST"%string \/ code = 400 /\ method = "POST"%string).
Proof.
  intros Hbad. unfold SubmitMetric.
  destruct (String.eqb_spec method "POST") as [-> | Hm]; cbn [negb].
  - destruct Hbad as [Hm | [-> | (m & -> & Hid)]]; [done | |].
    + exists 400. eexists. split; [reflexivity | by right].
    + assert (Hid' : mDeviceID (if IsZero (mTimestamp m) then with_timestamp m now else m)
                     = EmptyString) by (by destruct (IsZero _)).
      rewrite Hid'. cbn. exists 400. eexists. split; [reflexivity | by right].
  - exists 405. eexists. split; [reflexivity | by left].
Qed.

Lemma SubmitMetric_rejects_witness :
  exists resp effects,
    SubmitMetric (NewAnalyzer 50 2) "POST" None 7 = Ok (NewAnalyzer 50 2, resp, effects) /\
    status resp = 400.
Proof.
  destruct (SubmitMetric_rejects (NewAnalyzer 50 2) "POST" None 7
              (or_intror (or_introl eq_refl)))
    as (code & msg & Hrun & [[_ Hne] | [Hcode _]]).
  - exfalso. apply Hne. reflexivity.
  - eexists. eexists. split; [exact Hrun | exact Hcode].
Defined.

(** X13. A POST with a decodable metric that names a device is answered
    200 "accepted", sent to Redis and counted as received, whatever the
    state of the ingestion queue: the reading goes to the tail of the queue
    when there is room and is dropped when there is none, with the same
    response and the same trace.  A zero timestamp is replaced by the
    current time, any other is kept. *)
Theorem SubmitMetric_accepts a m now :
  closed (metricsChan a) = false -> mDeviceID m <> EmptyString ->
  let m' := with_timestamp m (if mTimestamp m =? 0 then now else mTimestamp m) in
  exists a',
    SubmitMetric a "POST" (Some m) now =
      Ok (a',
          {| status := 200;
             body := JsonObject [("device_id", JString (mDeviceID m));
                                 ("status", JString "accepted")]%string |},
          [GoStoreMetric m'; CounterInc "metrics_received_total" [];
           requestsTotal "POST" "/metrics" "200"; requestDuration "POST" "/metrics"]) /\
    windows a' = windows a /\
    buf (metricsChan a') =
      (if (length (buf (metricsChan a)) <? cap (metricsChan a))%nat
       then buf (metricsChan a) ++ [toMetricData m'] else buf (metricsChan a)).
Proof.
  intros Hopen Hid m'. unfold SubmitMetric.
  change (negb ("POST" =? "POST")%string) with false. cbn iota.
  assert (Hm' : (if IsZero (mTimestamp m) then with_timestamp m now else m) = m').
  { subst m'. unfold IsZero. destruct (Z.eqb_spec (mTimestamp m) 0); [done |].
    by destruct m. }
  rewrite Hm'.
  destruct (String.eqb_spec (mDeviceID m') "") as [Hcontra | _]; [by destruct Hid |].
  unfold AddMetric. rewrite select_send_default_open by done.
  unfold mbind, Outcome_bind. cbn [bind].
  eexists. split; [reflexivity |]. cbn. split; [done |]. by destruct_if.
Qed.

Lemma SubmitMetric_accepts_witness :
  exists a' effects,
    SubmitMetric saturated_analyzer "POST"
      (Some {| mTimestamp := 0; mDeviceID := "dev-9"; mCPU := 1%float;
               mRPS := 2%float; mMemory := 0%float |}) 7
    = Ok (a',
          {| status := 200;
             body := JsonObject [("device_id", JString "dev-9");
                                 ("status", JString "accepted")]%string |},
          effects) /\
    length (buf (metricsChan a')) = 1000%nat.
Proof.
  destruct (SubmitMetric_accepts saturated_analyzer
              {| mTimestamp := 0; mDeviceID := "dev-9"; mCPU := 1%float;
                 mRPS := 2%float; mMemory := 0%float |} 7)
    as (a' & Hrun & _ & Hbuf); [vm_compute; reflexivity | done |].
  exists a'. eexists. split; [exact Hrun |]. rewrite Hbuf. vm_compute. reflexivity.
Defined.

(** The loop of a batch is a burst of submissions. *)
Lemma batch_loop_burst now batchMetrics :
  forall a i accepted,
    closed (metricsChan a) = false -> chan_within (metricsChan a) ->
    exists effects,
      batch_loop a now i batchMetrics accepted =
        Ok (set_metricsChan a
              {| buf := take (cap (metricsChan a))
                             (buf (metricsChan a)
                              ++ map toMetricData (batch_entries now i batchMetrics));
                 cap := cap (metricsChan a); closed := false |},
            accepted + Z.of_nat (length (batch_entries now i batchMetrics)), effects) /\
      stored_metrics effects = batch_entries now i batchMetrics.
Proof.
  induction batchMetrics as [|m rest IH]; intros a i accepted Hopen Hw;
    cbn [batch_loop batch_entries].
  - exists []. rewrite Z.add_0_r, app_nil_r, take_ge by done. split; [| done].
    do 2 f_equal. destruct a as [? ? ? [? ? ?] ? ? ?]. cbn in *. by subst.
  - destruct (String.eqb (mDeviceID m) ""); [by apply IH |].
    set (m' := if IsZero (mTimestamp m) then with_timestamp m (now i) else m).
    unfold AddMetric. rewrite select_send_default_open by done.
    unfold mbind, Outcome_bind. cbn [bind].
    unfold chan_within in Hw.
    destruct (Nat.ltb_spec (length (buf (metricsChan a))) (cap (metricsChan a))) as [Hlt|Hge].
    + set (a1 := set_metricsChan a _).
      assert (Hopen1 : closed (metricsChan a1) = false) by done.
      assert (Hw1 : chan_within (metricsChan a1)).
      { unfold chan_within. subst a1. cbn. rewrite length_app. cbn. lia. }
      destruct (IH a1 (S i) (accepted + 1) Hopen1 Hw1) as (effects & -> & Hst).
      cbn [bind length map]. eexists. split.
      { subst a1. unfold set_metricsChan.
        cbn [windows windowSize anomalyThreshold metricsChan resultsChan stopChan wg
             buf cap closed].
        rewrite <- app_assoc. cbn [app].
        assert (Hz : forall L, accepted + 1 + Z.of_nat L = accepted + Z.of_nat (S L))
          by (intros; lia).
        rewrite Hz. reflexivity. }
      change (stored_metrics (GoStoreMetric m' :: CounterInc "metrics_received_total" []
                              :: effects))
        with (m' :: stored_metrics effects).
      by rewrite Hst.
    + rewrite set_metricsChan_id.
      destruct (IH a (S i) (accepted + 1) Hopen Hw) as (effects & -> & Hst).
      cbn [bind length map]. eexists. split.
      { rewrite !take_app_le by lia.
        assert (Hz : forall L, accepted + 1 + Z.of_nat L = accepted + Z.of_nat (S L))
          by (intros; lia).
        rewrite Hz. reflexivity. }
      change (stored_metrics (GoStoreMetric m' :: CounterInc "metrics_received_total" []
                              :: effects))
        with (m' :: stored_metrics effects).
      by rewrite Hst.
Qed.

Lemma batch_entries_length now batchMetrics :
  forall i,
    length (batch_entries now i batchMetrics)
    = length (List.filter (fun m => negb (String.eqb (mDeviceID m) "")) batchMetrics).
Proof.
  induction batchMetrics as [|m rest IH]; intros i; cbn [batch_entries List.filter];
    [done |].
  destruct (String.eqb (mDeviceID m) ""); cbn [negb length]; by rewrite IH.
Qed.

Lemma BatchSubmitMetrics_burst a batchMetrics now :
  closed (metricsChan a) = false -> chan_within (metricsChan a) ->
  exists effects,
    BatchSubmitMetrics a "POST" (Some batchMetrics) now =
      Ok (set_metricsChan a
            {| buf := take (cap (metricsChan a))
                           (buf (metricsChan a)
                            ++ map toMetricData (batch_entries now 0 batchMetrics));
               cap := cap (metricsChan a); closed := false |},
          {| status := 200;
             body := JsonObject
                       [("accepted",
                         JInt (Z.of_nat (length (batch_entries now 0 batchMetrics))));
                        ("status", JString "accepted");
                        ("total", JInt (Z.of_nat (length batchMetrics)))]%string |},
          effects) /\
    stored_metrics effects = batch_entries now 0 batchMetrics.
Proof.
  intros Hopen Hw. unfold BatchSubmitMetrics.
  change (negb ("POST" =? "POST")%string) with false. cbn iota.
  destruct (batch_loop_burst now batchMetrics a 0%nat 0 Hopen Hw) as (effects & -> & Hst).
  unfold mbind, Outcome_bind. cbn [bind]. eexists. split; [reflexivity |].
  unfold stored_metrics in *. rewrite omap_app, Hst. cbn. by rewrite app_nil_r.
Qed.

(** X14. [BatchSubmitMetrics] on a decodable POST answers 200 with
    [total] the number of entries and [accepted] the number of entries that
    name a device; entries without one are skipped silently.  Every counted
    entry is sent to Redis, and the ingestion queue receives them in order
    up to its capacity: an entry the queue drops is counted and stored all
    the same. *)
Theorem BatchSubmitMetrics_counts a batchMetrics now :
  closed (metricsChan a) = false -> chan_within (metricsChan a) ->
  let entries := batch_entries now 0 batchMetrics in
  exists a' effects,
    BatchSubmitMetrics a "POST" (Some batchMetrics) now =
      Ok (a',
          {| status := 200;
             body := JsonObject [("accepted", JInt (Z.of_nat (length entries)));
                                 ("status", JString "accepted");
                                 ("total", JInt (Z.of_nat (length batchMetrics)))]%string |},
          effects) /\
    length entries
      = length (List.filter (fun m => negb (String.eqb (mDeviceID m) "")) batchMetrics) /\
    stored_metrics effects = entries /\
    windows a' = windows a /\
    buf (metricsChan a') =
      take (cap (metricsChan a)) (buf (metricsChan a) ++ map toMetricData entries).
Proof.
  intros Hopen Hw entries.
  destruct (BatchSubmitMetrics_burst a batchMetrics now Hopen Hw) as (effects & Hrun & Hst).
  eexists. exists effects. split; [exact Hrun |].
  split; [apply batch_entries_length |]. by repeat split.
Qed.

Lemma BatchSubmitMetrics_counts_witness :
  exists a' resp effects,
    BatchSubmitMetrics saturated_analyzer "POST"
      (Some [ {| mTimestamp := 0; mDeviceID := "dev-9"; mCPU := 1%float;
                 mRPS := 2%float; mMemory := 0%float |};
              {| mTimestamp := 5; mDeviceID := ""; mCPU := 1%float;
                 mRPS := 2%float; mMemory := 0%float |} ])
      (fun i => Z.of_nat i + 100)
    = Ok (a', resp, effects) /\
    body resp = JsonObject [("accepted", JInt 1); ("status", JString "accepted");
                            ("total", JInt 2)]%string /\
    length (buf (metricsChan a')) = 1000%nat /\
    length (stored_metrics effects) = 1%nat.
Proof.
  destruct (BatchSubmitMetrics_counts saturated_analyzer
      [ {| mTimestamp := 0; mDeviceID := "dev-9"; mCPU := 1%float;
           mRPS := 2%float; mMemory := 0%float |};
        {| mTimestamp := 5; mDeviceID := ""; mCPU := 1%float;
           mRPS := 2%float; mMemory := 0%float |} ]
      (fun i => Z.of_nat i + 100))
    as (a' & effects & Hrun & _ & Hst & _ & Hbuf).
  - vm_compute. reflexivity.
  - unfold chan_within. vm_compute. lia.
  - exists a'. eexists. exists effects. split; [exact Hrun |]. split; [reflexivity |].
    rewrite Hbuf, Hst. split; vm_compute; reflexivity.
Defined.

(** ** The consumer of results *)

(** The consumer loop receives what [range_results] receives and handles
    each result in turn. *)
Lemma processAnalysisResults_range fuel :
  forall a,
    processAnalysisResults fuel a =
      bind (range_results fuel a)
           (fun '(rs, a') => Ok (flat_map handleResult rs, a')).
Proof.
  induction fuel as [|fuel IH]; intros a; [done |].
  cbn [processAnalysisResults range_results]. unfold mbind, Outcome_bind.
  destruct (recvResult a) as [[[r|] a1]| |]; cbn [bind]; try done.
  rewrite IH. destruct (range_results fuel a1) as [[rs a2]| |]; done.
Qed.

Lemma handled_results_stored rs :
  stored_analyses (flat_map handleResult rs) = rs /\
  stored_anomalies (flat_map handleResult rs) = List.filter IsAnomaly rs /\
  anomaly_counts (flat_map handleResult rs)
    = map (fun r => [AnomalyType r; rDeviceID r]) (List.filter IsAnomaly rs).
Proof.
  unfold stored_analyses, stored_anomalies, anomaly_counts.
  induction rs as [|r rs (IH1 & IH2 & IH3)]; [done |].
  cbn [flat_map List.filter]. rewrite !omap_app, IH1, IH2, IH3.
  unfold handleResult. by destruct (IsAnomaly r).
Qed.

Lemma processAnalysisResults_closed a :
  closed (resultsChan a) = true ->
  exists a',
    processAnalysisResults (S (length (buf (resultsChan a)))) a
      = Ok (flat_map handleResult (buf (resultsChan a)), a') /\
    buf (resultsChan a') = [] /\ windows a' = windows a.
Proof.
  intros Hc.
  destruct (range_results_closed (buf (resultsChan a)) a Hc eq_refl)
    as (a' & Hrange & Hempty & _ & Hw & _).
  exists a'. by rewrite processAnalysisResults_range, Hrange.
Qed.

(** X15. The consumer loop of [main].  While the result channel is open
    the loop does not return.  Once the channel is closed the loop returns
    after draining it: every buffered result has been sent to
    [StoreAnalysis], in order; exactly the flagged ones have been sent to
    [StoreAnomaly] and counted in [anomalies_detected_total] under their
    type and device. *)
Theorem consumer_stores_every_result a :
  closed (resultsChan a) = true ->
  exists effects a',
    processAnalysisResults (S (length (buf (resultsChan a)))) a = Ok (effects, a') /\
    stored_analyses effects = buf (resultsChan a) /\
    stored_anomalies effects = List.filter IsAnomaly (buf (resultsChan a)) /\
    anomaly_counts effects
      = map (fun r => [AnomalyType r; rDeviceID r])
            (List.filter IsAnomaly (buf (resultsChan a))) /\
    buf (resultsChan a') = [] /\
    forall b fuel, closed (resultsChan b) = false ->
      processAnalysisResults fuel b = Blocks.
Proof.
  intros Hc. destruct (processAnalysisResults_closed a Hc) as (a' & Hrun & Hempty & _).
  destruct (handled_results_stored (buf (resultsChan a))) as (H1 & H2 & H3).
  eexists. exists a'. split; [exact Hrun |]. repeat (split; [done |]).
  intros b fuel Hopen. by rewrite processAnalysisResults_range, range_results_open.
Qed.

Lemma consumer_stores_every_result_witness :
  exists effects a',
    processAnalysisResults 3
      (set_resultsChan (NewAnalyzer 50 2)
         {| buf := [ {| rDeviceID := "a"; rTimestamp := 1; RollingAvgCPU := 10;
                        RollingAvgRPS := 5; IsAnomaly := true; AnomalyScore := 3;
                        AnomalyType := "CPU_SPIKE"; StandardDev := 1 |};
                     {| rDeviceID := "b"; rTimestamp := 2; RollingAvgCPU := 10;
                        RollingAvgRPS := 5; IsAnomaly := false; AnomalyScore := 0;
                        AnomalyType := ""; StandardDev := 1 |} ];
            cap := 1000; closed := true |})
    = Ok (effects, a') /\
    length (stored_analyses effects) = 2%nat /\
    anomaly_counts effects = [["CPU_SPIKE"; "a"]]%string.
Proof.
  destruct (consumer_stores_every_result
      (set_resultsChan (NewAnalyzer 50 2)
         {| buf := [ {| rDeviceID := "a"; rTimestamp := 1; RollingAvgCPU := 10;
                        RollingAvgRPS := 5; IsAnomaly := true; AnomalyScore := 3;
                        AnomalyType := "CPU_SPIKE"; StandardDev := 1 |};
                     {| rDeviceID := "b"; rTimestamp := 2; RollingAvgCPU := 10;
                        RollingAvgRPS := 5; IsAnomaly := false; AnomalyScore := 0;
                        AnomalyType := ""; StandardDev := 1 |} ];
            cap := 1000; closed := true |}) eq_refl)
    as (effects & a' & Hrun & Hst & _ & Hcnt & _).
  exists effects, a'. split; [exact Hrun |]. by rewrite Hst, Hcnt.
Defined.



